(** * NCBI EUtils proxy: search, batch papers and single-paper handlers

    A shallow embedding of [api/search.js], [api/papers.js] and
    [api/paper/[id].js] (the route bodies of [server.js] are the same code),
    with the properties of the normaliser, the enrichment pass, the ID
    sanitiser and the error paths.

    Modelling conventions.
    - A JavaScript string is a [string]: a sequence of code units, here the
      code units below 256.  Lengths, [padStart], [trim] and the
      case-insensitive matches are those of ECMAScript on that range.
    - A JavaScript number that the handlers compute is an integer, kept as
      a [Z]; [None] in an [option Z] is [NaN].
    - The XML parser and the HTTP client are libraries: an upstream body is
      given by what [axios] hands back as [data] and by the document JSDOM
      builds from it (or its failure to build one).  An element name is the
      local name a type selector sees, an attribute name the qualified name
      [getAttribute] sees.
    - A handler is a program that ends with a response, throws, or awaits an
      upstream GET; [Http.run] runs it against an upstream and returns the
      response with the URLs fetched.

    Layout: the code ([Js], [Val], [Dom], [Sanitizer], [Normalizer],
    [Enrichment], [Http], [Search], [Papers], [PaperById]), the vocabulary
    of the properties ([Spec]), sample documents ([Samples]), then the
    properties. *)

From Stdlib Require Import String Ascii ZArith Lia Bool DecimalString.
From stdpp Require Import base tactics option list strings.

Set Warnings "-register-all".

Local Open Scope string_scope.
Local Open Scope list_scope.

(** ** JavaScript strings *)

Module Js.

(** WhiteSpace and LineTerminator code units below 256:
    TAB, LF, VT, FF, CR, SP and NBSP. *)
Definition isWhiteSpace (c : ascii) : bool :=
  let n := nat_of_ascii c in
  ((9 <=? n)%nat && (n <=? 13)%nat) || (n =? 32)%nat || (n =? 160)%nat.

Fixpoint trimStart (s : string) : string :=
  match s with
  | String c s' => if isWhiteSpace c then trimStart s' else s
  | EmptyString => EmptyString
  end.

Fixpoint trimEnd (s : string) : string :=
  match s with
  | EmptyString => EmptyString
  | String c s' =>
      let r := trimEnd s' in
      if isWhiteSpace c && (r =? "")%string then EmptyString else String c r
  end.

(** [String.prototype.trim] *)
Definition trim (s : string) : string := trimEnd (trimStart s).

(** The filler of [padStart]: [pad] repeated and cut to [n] code units;
    [cur] is what is left of the current copy of [pad]. *)
Fixpoint fillTo (pad cur : string) (n : nat) : string :=
  match n with
  | O => EmptyString
  | S n' =>
      match cur with
      | String c cur' => String c (fillTo pad cur' n')
      | EmptyString =>
          match pad with
          | String c pad' => String c (fillTo pad pad' n')
          | EmptyString => EmptyString
          end
      end
  end.

(** [s.padStart(target, pad)] *)
Definition padStart (target : nat) (pad : string) (s : string) : string :=
  if (target <=? String.length s)%nat || (pad =? "")%string then s
  else fillTo pad pad (target - String.length s) +:+ s.

(** [s.startsWith(p)] *)
Fixpoint startsWith (p s : string) : bool :=
  match p, s with
  | EmptyString, _ => true
  | String a p', String b s' => Ascii.eqb a b && startsWith p' s'
  | String _ _, EmptyString => false
  end.

(** [s.includes(p)] *)
Fixpoint includes (p s : string) : bool :=
  startsWith p s ||
  match s with
  | EmptyString => false
  | String _ s' => includes p s'
  end.

(** [s.endsWith(p)] *)
Fixpoint endsWith (p s : string) : bool :=
  (s =? p)%string ||
  match s with
  | EmptyString => false
  | String _ s' => endsWith p s'
  end.

(** [toLowerCase] on one code unit: A-Z, and the Latin-1 capitals
    U+00C0-U+00DE except the multiplication sign U+00D7. *)
Definition lowerChar (c : ascii) : ascii :=
  let n := nat_of_ascii c in
  if ((65 <=? n)%nat && (n <=? 90)%nat)
     || ((192 <=? n)%nat && (n <=? 222)%nat && negb (n =? 215)%nat)
  then ascii_of_nat (n + 32) else c.

Fixpoint toLowerCase (s : string) : string :=
  match s with
  | EmptyString => EmptyString
  | String c s' => String (lowerChar c) (toLowerCase s')
  end.

(** [arr.join(sep)] on an array of strings *)
Definition join (sep : string) (l : list string) : string :=
  String.concat sep l.

(** [a || b] on strings: the empty string is the only falsy string. *)
Definition orElse (a b : string) : string :=
  if (a =? "")%string then b else a.

(** [el?.textContent || ''] and the like: an absent value gives [''] *)
Definition orEmpty (o : option string) : string :=
  match o with Some s => s | None => EmptyString end.

(** Decimal rendering of an integer, as [Number.prototype.toString] gives
    it for the integers the handlers meet. *)
Definition Z_to_string (n : Z) : string :=
  NilZero.string_of_int (Z.to_int n).

Definition isDigit (c : ascii) : bool :=
  let n := nat_of_ascii c in (48 <=? n)%nat && (n <=? 57)%nat.

(** Value of the leading run of decimal digits, with the number of digits
    read. *)
Fixpoint leadingDigits (s : string) (acc : Z) (count : nat) : Z * nat :=
  match s with
  | String c s' =>
      if isDigit c
      then leadingDigits s' (10 * acc + Z.of_nat (nat_of_ascii c - 48)) (S count)
      else (acc, count)
  | EmptyString => (acc, count)
  end.

(** [parseInt(s, 10)] on a string: leading white space is skipped, one
    sign is read, then the longest run of digits; no digit gives [NaN]
    ([None]). *)
Definition parseIntStr (s : string) : option Z :=
  let s1 := trimStart s in
  let '(neg, s2) :=
    match s1 with
    | String "-"%char r => (true, r)
    | String "+"%char r => (false, r)
    | _ => (false, s1)
    end in
  let '(v, k) := leadingDigits s2 0 0 in
  match k with
  | O => None
  | S _ => Some (if neg then (- v)%Z else v)
  end.

Definition hexDigit (n : nat) : ascii :=
  if (n <? 10)%nat then ascii_of_nat (48 + n) else ascii_of_nat (55 + n).

Definition percent (n : nat) : string :=
  String "%"%char (String (hexDigit (n / 16)) (String (hexDigit (n mod 16)) EmptyString)).

(** Code units [encodeURIComponent] leaves as they are. *)
Definition uriUnreserved (c : ascii) : bool :=
  let n := nat_of_ascii c in
  ((65 <=? n)%nat && (n <=? 90)%nat) || ((97 <=? n)%nat && (n <=? 122)%nat)
  || isDigit c
  || existsb (Ascii.eqb c)
       ["-"; "_"; "."; "!"; "~"; "*"; "'"; "("; ")"]%char.

(** [encodeURIComponent]: the UTF-8 bytes of every other code unit,
    percent-encoded. *)
Fixpoint encodeURIComponent (s : string) : string :=
  match s with
  | EmptyString => EmptyString
  | String c s' =>
      let n := nat_of_ascii c in
      (if uriUnreserved c then String c EmptyString
       else if (n <? 128)%nat then percent n
       else percent (192 + n / 64) +:+ percent (128 + n mod 64))
      +:+ encodeURIComponent s'
  end.

(** [s.slice(n)] for [n] within the string *)
Fixpoint drop (n : nat) (s : string) : string :=
  match n, s with
  | S n', String _ s' => drop n' s'
  | _, _ => s
  end.

End Js.

(** ** JavaScript values

    The values a parsed query string, a JSON request body or a JSON upstream
    body can hold. *)

Inductive jsval : Type :=
| JUndefined
| JNull
| JBool (b : bool)
| JNum (n : Z)
| JNaN
| JStr (s : string)
| JArr (items : list jsval)
| JObj (fields : list (string * jsval)).

Module Val.

(** ToBoolean *)
Definition truthy (v : jsval) : bool :=
  match v with
  | JUndefined | JNull | JNaN => false
  | JBool b => b
  | JNum n => negb (n =? 0)%Z
  | JStr s => negb (s =? "")%string
  | JArr _ | JObj _ => true
  end.

(** ToString; an array is its elements joined by commas, [null] and
    [undefined] elements giving the empty string. *)
Fixpoint ToString (v : jsval) : string :=
  match v with
  | JUndefined => "undefined"
  | JNull => "null"
  | JBool true => "true"
  | JBool false => "false"
  | JNum n => Js.Z_to_string n
  | JNaN => "NaN"
  | JStr s => s
  | JArr items =>
      Js.join ","
        (map (fun x => match x with
                       | JUndefined | JNull => EmptyString
                       | _ => ToString x
                       end) items)
  | JObj _ => "[object Object]"
  end.

(** [parseInt(v, 10)] *)
Definition parseInt (v : jsval) : option Z := Js.parseIntStr (ToString v).

(** Own property of a plain object, first binding of the key. *)
Fixpoint lookup_field (k : string) (fields : list (string * jsval)) : option jsval :=
  match fields with
  | [] => None
  | (k', v) :: rest => if (k' =? k)%string then Some v else lookup_field k rest
  end.

(** [v.k] for the property names the handlers read, none of which the
    built-in prototypes define: [None] is the TypeError of reading a
    property of [undefined] or [null]. *)
Definition getProp (v : jsval) (k : string) : option jsval :=
  match v with
  | JUndefined | JNull => None
  | JObj fields =>
      Some (match lookup_field k fields with Some x => x | None => JUndefined end)
  | _ => Some JUndefined
  end.

(** A destructuring default: [const { x = d } = ...] *)
Definition withDefault (v d : jsval) : jsval :=
  match v with JUndefined => d | _ => v end.

(** [a || b] *)
Definition orElse (a b : jsval) : jsval := if truthy a then a else b.

End Val.

(** ** Documents

    An XML document as the DOM shows it to the handlers: elements with a
    name, attributes and children, and text. *)

Inductive node : Type :=
| Text (data : string)
| Elem (name : string) (attrs : list (string * string)) (children : list node).

Module Dom.

(** What a selector can see of an element: its name and attributes. *)
Definition einfo : Type := string * list (string * string).

(** An element of a document: the element itself and its ancestors,
    nearest first. *)
Record element : Type := mkElement {
  ancestors : list einfo;
  tagName : string;
  attributes : list (string * string);
  childNodes : list node
}.

Definition info (e : element) : einfo := (tagName e, attributes e).

(** [el.getAttribute(name)]: [None] is [null]. *)
Fixpoint lookup_attr (k : string) (attrs : list (string * string)) : option string :=
  match attrs with
  | [] => None
  | (k', v) :: rest => if (k' =? k)%string then Some v else lookup_attr k rest
  end.

Definition getAttribute (k : string) (e : element) : option string :=
  lookup_attr k (attributes e).

(** [node.textContent]: the text of all descendants, in document order. *)
Fixpoint nodeText (n : node) : string :=
  match n with
  | Text s => s
  | Elem _ _ kids => String.concat "" (map nodeText kids)
  end.

Definition textContent (e : element) : string :=
  String.concat "" (map nodeText (childNodes e)).

(** The element [n] (if it is one) and the elements below it, in document
    order, each with its ancestors. *)
Fixpoint subtree (ctx : list einfo) (n : node) : list element :=
  match n with
  | Text _ => []
  | Elem t a kids =>
      mkElement ctx t a kids :: flat_map (subtree ((t, a) :: ctx)) kids
  end.

(** The elements strictly below [e]. *)
Definition descendants (e : element) : list element :=
  flat_map (subtree (info e :: ancestors e)) (childNodes e).

(** Selectors: a compound is an element name with an optional
    [[attr='value']] test; a complex selector chains compounds with the
    child ([>]) and the descendant (space) combinator. *)
Record compound : Type := mkCompound {
  sel_name : string;
  sel_attr : option (string * string)
}.

Inductive selector : Type :=
| SCompound (c : compound)
| SChild (parent : selector) (c : compound)
| SDesc (ancestor : selector) (c : compound).

Definition matchCompound (c : compound) (i : einfo) : bool :=
  (fst i =? sel_name c)%string &&
  match sel_attr c with
  | None => true
  | Some (k, v) =>
      match lookup_attr k (snd i) with
      | Some v' => (v' =? v)%string
      | None => false
      end
  end.

(** A selector is matched against the whole document: the ancestors that
    count are all the ancestors of the element, also those above the
    element the query was made on. *)
Fixpoint matchesAt (s : selector) (ctx : list einfo) (i : einfo) : bool :=
  match s with
  | SCompound c => matchCompound c i
  | SChild p c =>
      matchCompound c i &&
      match ctx with
      | up :: ctx' => matchesAt p ctx' up
      | [] => false
      end
  | SDesc a c =>
      matchCompound c i &&
      (fix above (ctx : list einfo) : bool :=
         match ctx with
         | up :: ctx' => matchesAt a ctx' up || above ctx'
         | [] => false
         end) ctx
  end.

Definition matches (s : selector) (e : element) : bool :=
  matchesAt s (ancestors e) (info e).

(** [el.querySelectorAll(s)], [el.querySelector(s)] *)
Definition querySelectorAll (s : selector) (e : element) : list element :=
  filter (fun d => matches s d = true) (descendants e).

Definition querySelector (s : selector) (e : element) : option element :=
  head (querySelectorAll s e).

(** The same on the document, given by its root element: the root is
    among the candidates. *)
Definition docQuerySelectorAll (s : selector) (root : node) : list element :=
  filter (fun d => matches s d = true) (subtree [] root).

Definition docQuerySelector (s : selector) (root : node) : option element :=
  head (docQuerySelectorAll s root).

(** [el.querySelector(s)?.textContent] *)
Definition textOf (s : selector) (e : element) : option string :=
  textContent <$> querySelector s e.

Definition tag (t : string) : selector := SCompound (mkCompound t None).
Definition tagAttr (t k v : string) : selector := SCompound (mkCompound t (Some (k, v))).
Definition child (p t : string) : selector := SChild (tag p) (mkCompound t None).

End Dom.

(** ** The ID sanitiser: [cleanPmcId] *)

Module Sanitizer.

(** Case folding of the [i] flag on one code unit (Canonicalize without
    the [u] flag is [toUpperCase]); the letters a-z and the Latin-1 small
    letters move, every other code unit below 256 is compared as it is. *)
Definition canonicalize (c : ascii) : ascii :=
  let n := nat_of_ascii c in
  if ((97 <=? n)%nat && (n <=? 122)%nat)
     || ((224 <=? n)%nat && (n <=? 254)%nat && negb (n =? 247)%nat)
  then ascii_of_nat (n - 32) else c.

(** Match the literal [lit] at the start of [s] under the [i] flag; the
    result is what follows the match. *)
Fixpoint matchLiteral (lit s : string) : option string :=
  match lit, s with
  | EmptyString, _ => Some s
  | String a lit', String b s' =>
      if Ascii.eqb (canonicalize a) (canonicalize b) then matchLiteral lit' s' else None
  | String _ _, EmptyString => None
  end.

(** [s.replace(/^(PMC|pmc)/i, '')]: the alternatives are tried in order
    at position 0, the first match is removed. *)
Definition cleanPmcIdStr (s : string) : string :=
  match matchLiteral "PMC" s with
  | Some rest => rest
  | None =>
      match matchLiteral "pmc" s with
      | Some rest => rest
      | None => s
      end
  end.

(** [cleanPmcId(id)] *)
Definition cleanPmcId (id : jsval) : jsval :=
  match id with
  | JStr s => JStr (cleanPmcIdStr s)
  | _ => id
  end.

End Sanitizer.

(** ** The record normaliser *)

Module Normalizer.
Import Dom Sanitizer.

(** The paper record of the batch endpoint. *)
Record paper : Type := mkPaper {
  pmcid : string;
  uid : string;
  title : string;
  articletitle : string;
  sortfirstauthor : string;
  authors : string;
  authorsArray : list string;
  source : string;
  pubdate : string;
  pdfUrl : string
}.

(** [el.querySelector(s)?.textContent || ''] *)
Definition textOr (s : selector) (e : element) : string :=
  Js.orEmpty (textOf s e).

(** [el.querySelector(s)?.textContent?.trim() || ''] *)
Definition trimmedTextOr (s : selector) (e : element) : string :=
  Js.orEmpty (Js.trim <$> textOf s e).

(** A string used as a condition. *)
Definition nonEmpty (s : string) : bool := negb (s =? "")%string.

(** An attribute value ([null] when absent) used as a condition. *)
Definition attrTruthy (o : option string) : bool :=
  match o with Some v => nonEmpty v | None => false end.

Definition pdfTemplate (id : string) : string :=
  "https://www.ncbi.nlm.nih.gov/pmc/articles/PMC" +:+ id +:+ "/pdf/".

(** The three-way date composition shared by both schemas; [fallback] is
    what the last [else] assigns ([None] when the schema has none). *)
Definition composeDate (year month day : string) (fallback : option string)
    (pubDate : string) : string :=
  if nonEmpty year && nonEmpty month && nonEmpty day then
    year +:+ "-" +:+ Js.padStart 2 "0" month +:+ "-" +:+ Js.padStart 2 "0" day
  else if nonEmpty year && nonEmpty month then
    year +:+ "-" +:+ Js.padStart 2 "0" month
  else if nonEmpty year then year
  else match fallback with Some v => v | None => pubDate end.

(** *** PubMed schema ([papers.js], the [db === 'pubmed'] loop body) *)

Definition pubmedAbstract (pubmedArticle : element) : string :=
  let abstractElements := querySelectorAll (child "Abstract" "AbstractText") pubmedArticle in
  if (0 <? length abstractElements)%nat then
    Js.join " "
      (map (fun el =>
              let label := getAttribute "Label" el in
              let text := Js.trim (textContent el) in
              match label with
              | Some l => if nonEmpty l then l +:+ ": " +:+ text else text
              | None => text
              end) abstractElements)
  else "No abstract available.".

Definition pubmedAuthorName (authorEl : element) : string :=
  let firstName := textOr (tag "ForeName") authorEl in
  let lastName := textOr (tag "LastName") authorEl in
  let fullName := Js.trim (firstName +:+ " " +:+ lastName) in
  Js.orElse fullName (Js.orElse (textOr (tag "CollectiveName") authorEl) "Unknown").

(** [authors] and [firstAuthor] *)
Definition pubmedAuthors (pubmedArticle : element) : list string * string :=
  match querySelector (tag "AuthorList") pubmedArticle with
  | Some authorList =>
      let authorElements := querySelectorAll (tag "Author") authorList in
      let authors :=
        filter (fun name => nonEmpty name && negb (name =? "Unknown")%string = true)
               (map pubmedAuthorName authorElements) in
      (authors, match authors with a :: _ => a | [] => "Unknown" end)
  | None => ([], "Unknown")
  end.

Definition pubmedJournal (pubmedArticle : element) : string :=
  Js.orElse (textOr (tag "MedlineTA") pubmedArticle)
    (Js.orElse (textOr (child "Journal" "Title") pubmedArticle) "").

Definition pubmedPubDate (pubmedArticle : element) : string :=
  let pubDate := "" in
  match querySelector (tag "PubDate") pubmedArticle with
  | Some pubDateElement =>
      let year := trimmedTextOr (tag "Year") pubDateElement in
      let month := trimmedTextOr (tag "Month") pubDateElement in
      let day := trimmedTextOr (tag "Day") pubDateElement in
      composeDate year month day
        (Some (Js.orElse (trimmedTextOr (child "PubStatus" "Year") pubmedArticle) year))
        pubDate
  | None => pubDate
  end.

Definition pubmedPmcId (pubmedArticle : element) : string :=
  match querySelector (tag "ArticleIdList") pubmedArticle with
  | Some articleIdList =>
      match List.find (fun el => match getAttribute "IdType" el with
                                 | Some v => (v =? "pmc")%string
                                 | None => false
                                 end)
              (querySelectorAll (tag "ArticleId") articleIdList) with
      | Some pmcIdElement => textContent pmcIdElement
      | None => ""
      end
  | None => ""
  end.

Definition normalizePubmed (pubmedArticle : element) : paper :=
  let pmid := textOr (tag "PMID") pubmedArticle in
  let articleTitle := textOr (tag "ArticleTitle") pubmedArticle in
  let abstract := pubmedAbstract pubmedArticle in
  let '(authors, firstAuthor) := pubmedAuthors pubmedArticle in
  let journal := pubmedJournal pubmedArticle in
  let pubDate := pubmedPubDate pubmedArticle in
  let pmcId := pubmedPmcId pubmedArticle in
  let cleanedPmcId := cleanPmcIdStr pmcId in
  let pdfUrl := if nonEmpty cleanedPmcId then pdfTemplate cleanedPmcId else "" in
  {| pmcid := cleanedPmcId;
     uid := pmid;
     title := Js.trim articleTitle;
     articletitle := Js.trim abstract;
     sortfirstauthor := firstAuthor;
     authors := Js.join ", " authors;
     authorsArray := authors;
     source := Js.trim journal;
     pubdate := pubDate;
     pdfUrl := pdfUrl |}.

(** *** PMC schema ([papers.js], the [db === 'pmc'] loop body) *)

Definition selPmcId : selector := tagAttr "article-id" "pub-id-type" "pmc".
Definition selPmid : selector := tagAttr "article-id" "pub-id-type" "pmid".
Definition selAbstractP : selector := SDesc (tag "abstract") (mkCompound "p" None).
Definition selAuthorName : selector :=
  SDesc (tagAttr "contrib" "contrib-type" "author") (mkCompound "name" None).

Definition pmcAuthorName (nameEl : element) : string :=
  let firstName := textOr (tag "given-names") nameEl in
  let lastName := textOr (tag "surname") nameEl in
  let fullName := Js.trim (firstName +:+ " " +:+ lastName) in
  Js.orElse fullName (Js.trim (textContent nameEl)).

Definition pmcAuthors (article : element) : list string :=
  filter (fun name => nonEmpty name = true)
         (map pmcAuthorName (querySelectorAll selAuthorName article)).

(** The date of a PMC article; [pubDate] is the value the variable holds
    before the [if]. *)
Definition pmcPubDate (article : element) (pubDate : string) : string :=
  match querySelector (tag "pub-date") article with
  | Some pubDateElement =>
      let year := trimmedTextOr (tag "year") pubDateElement in
      let month := trimmedTextOr (tag "month") pubDateElement in
      let day := trimmedTextOr (tag "day") pubDateElement in
      composeDate year month day None pubDate
  | None => pubDate
  end.

(** The [for (let link of extLinks)] loop with its [break]. *)
Fixpoint extLinkLoop (extLinks : list element) (pdfUrl : string) : string :=
  match extLinks with
  | [] => pdfUrl
  | link :: rest =>
      match getAttribute "xlink:href" link with
      | Some extLinkHref =>
          if nonEmpty extLinkHref && Js.endsWith ".pdf" (Js.toLowerCase extLinkHref)
          then extLinkHref
          else extLinkLoop rest pdfUrl
      | None => extLinkLoop rest pdfUrl
      end
  end.

(** The [pdfUrl] block of a PMC article: three assignments in a row, each
    guarded by the variable still being empty. *)
Definition pmcPdfUrl (article : element) (pmcIdInXml : string) : string :=
  let pdfUrl := "" in
  let pdfUrl :=
    match querySelector (tag "self-uri") article with
    | Some selfUri =>
        let selfUriContent := getAttribute "content-type" selfUri in
        let selfUriHref := getAttribute "xlink:href" selfUri in
        if attrTruthy selfUriContent
           && Js.includes "pdf" (Js.toLowerCase (Js.orEmpty selfUriContent))
           && attrTruthy selfUriHref
        then
          if Js.startsWith "http" (Js.orEmpty selfUriHref)
          then Js.orEmpty selfUriHref
          else pdfTemplate pmcIdInXml
        else pdfUrl
    | None => pdfUrl
    end in
  let pdfUrl :=
    if nonEmpty pdfUrl then pdfUrl
    else extLinkLoop (querySelectorAll (tag "ext-link") article) pdfUrl in
  let pdfUrl :=
    if nonEmpty pdfUrl then pdfUrl else pdfTemplate pmcIdInXml in
  pdfUrl.

Definition pmcAbstract (article : element) : string :=
  let abstractElements := querySelectorAll selAbstractP article in
  if (0 <? length abstractElements)%nat
  then Js.join " " (map textContent abstractElements)
  else "No abstract available.".

Definition normalizePmc (article : element) : paper :=
  let pmcIdInXmlRaw := textOr selPmcId article in
  let pmcIdInXml := cleanPmcIdStr pmcIdInXmlRaw in
  let pmid := textOr selPmid article in
  let title := textOr (tag "article-title") article in
  let abstract := pmcAbstract article in
  let authors := pmcAuthors article in
  let firstAuthor := match authors with a :: _ => a | [] => "Unknown" end in
  let journal := textOr (tag "journal-title") article in
  let pubDate := pmcPubDate article "" in
  let pdfUrl := pmcPdfUrl article pmcIdInXml in
  {| pmcid := pmcIdInXml;
     uid := pmid;
     title := Js.trim title;
     articletitle := Js.trim abstract;
     sortfirstauthor := firstAuthor;
     authors := Js.join ", " authors;
     authorsArray := authors;
     source := Js.trim journal;
     pubdate := pubDate;
     pdfUrl := pdfUrl |}.

End Normalizer.

(** ** The enrichment pass ([papers.js], the second [db === 'pubmed'] block) *)

Module Enrichment.
Import Dom Sanitizer Normalizer.

(** The object assigned to [papers[paperIndex]]: the old record spread,
    then the eight overlaid fields. *)
Definition overlay (old : paper) (article : element) (pmcIdInXml : string) : paper :=
  let titleInXml := Js.orElse (textOr (tag "article-title") article) (title old) in
  let abstractElementsInXml := querySelectorAll selAbstractP article in
  let abstractInXml :=
    if (0 <? length abstractElementsInXml)%nat
    then Js.join " " (map textContent abstractElementsInXml)
    else articletitle old in
  let authorsInXml := pmcAuthors article in
  let firstAuthorInXml :=
    match authorsInXml with a :: _ => a | [] => sortfirstauthor old end in
  let journalInXml := Js.orElse (textOr (tag "journal-title") article) (source old) in
  let pubDateInXml := pmcPubDate article (pubdate old) in
  let pdfUrlInXml := pmcPdfUrl article pmcIdInXml in
  {| pmcid := pmcid old;
     uid := uid old;
     title := Js.trim titleInXml;
     articletitle := Js.trim abstractInXml;
     sortfirstauthor := firstAuthorInXml;
     authors := Js.join ", " authorsInXml;
     authorsArray := authorsInXml;
     source := Js.trim journalInXml;
     pubdate := pubDateInXml;
     pdfUrl := pdfUrlInXml |}.

(** One turn of [for (let article of pmcArticles)]:
    [papers.findIndex(p => p.pmcid === pmcIdInXml)], then the update in
    place when the index is not -1. *)
Definition enrichOne (papers : list paper) (article : element) : list paper :=
  let pmcIdInXmlRaw := textOr selPmcId article in
  let pmcIdInXml := cleanPmcIdStr pmcIdInXmlRaw in
  match list_find (fun p => pmcid p = pmcIdInXml) papers with
  | Some (paperIndex, old) =>
      <[paperIndex := overlay old article pmcIdInXml]> papers
  | None => papers
  end.

(** The whole loop. *)
Definition enrich (papers : list paper) (pmcArticles : list element) : list paper :=
  fold_left enrichOne pmcArticles papers.

End Enrichment.

(** ** Requests, responses and the upstream service *)

Module Http.
Import Normalizer.

(** An upstream body, as its two readers see it: the [data] axios hands
    back (the parsed JSON, or the text), and what JSDOM makes of it as
    [text/xml]: a document, given by its root element, or the message of
    the parse error it throws. *)
Record payload : Type := mkPayload {
  as_json : jsval;
  as_xml : string + node
}.

(** A JavaScript error object, by the three properties the handlers read.
    An axios rejection carries [response] when the upstream answered
    outside 2xx, only [request] when no answer came (network failure,
    timeout), and neither when the request could not be set up; an error
    thrown by the handler's own code has neither. *)
Record js_error : Type := mkError {
  message : string;
  response : option (Z * payload);
  request : bool
}.

Definition thrown (msg : string) : js_error := mkError msg None false.

(** What [await axios.get(url, ...)] does. *)
Inductive axios_outcome : Type :=
| Fulfilled (status : Z) (data : payload)
| Rejected (e : js_error).

(** A handler run: it ends with a value, throws, or awaits an upstream
    GET and goes on with its outcome. *)
Inductive prog (A : Type) : Type :=
| Ret (a : A)
| Throw (e : js_error)
| Get (url : string) (k : axios_outcome -> prog A).
Arguments Ret {A} a.
Arguments Throw {A} e.
Arguments Get {A} url k.

Fixpoint bind {A B : Type} (p : prog A) (f : A -> prog B) : prog B :=
  match p with
  | Ret a => f a
  | Throw e => Throw e
  | Get url k => Get url (fun o => bind (k o) f)
  end.

(** [try { p } catch (error) { h error }] *)
Fixpoint tryCatch {A : Type} (p : prog A) (h : js_error -> prog A) : prog A :=
  match p with
  | Ret a => Ret a
  | Throw e => h e
  | Get url k => Get url (fun o => tryCatch (k o) h)
  end.

(** [await axios.get(url, ...)]: the response, or the rejection thrown. *)
Definition axiosGet (url : string) : prog (Z * payload) :=
  Get url (fun o => match o with
                    | Fulfilled status data => Ret (status, data)
                    | Rejected e => Throw e
                    end).

(** [new JSDOM(data, { contentType: "text/xml" }).window.document] *)
Definition parseXml (data : payload) : prog node :=
  match as_xml data with
  | inr root => Ret root
  | inl msg => Throw (thrown msg)
  end.

(** [v.k], throwing the TypeError of a read on [undefined] or [null]. *)
Definition readProp (v : jsval) (k : string) : prog jsval :=
  match Val.getProp v k with
  | Some x => Ret x
  | None =>
      Throw (thrown ("Cannot read properties of " +:+ Val.ToString v
                     +:+ " (reading '" +:+ k +:+ "')"))
  end.

(** The upstream service: its answer to a GET, given the GETs made before
    it in this run. *)
Definition upstream : Type := list string -> string -> axios_outcome.

(** Run a handler against an upstream; the result comes with the URLs
    fetched, in order. *)
Fixpoint run {A : Type} (net : upstream) (p : prog A) (calls : list string)
    : (js_error + A) * list string :=
  match p with
  | Ret a => (inr a, calls)
  | Throw e => (inl e, calls)
  | Get url k => run net (k (net calls url)) (calls ++ [url])
  end.

(** The single-paper record: the batch record without [authorsArray]. *)
Record paperData : Type := mkPaperData {
  pd_pmcid : string;
  pd_uid : string;
  pd_title : string;
  pd_articletitle : string;
  pd_sortfirstauthor : string;
  pd_authors : string;
  pd_source : string;
  pd_pubdate : string;
  pd_pdfUrl : string
}.

(** Response bodies, by shape. *)
Inductive response_body : Type :=
| NoBody
| ErrorBody (error : string) (details : option jsval)
| SearchBody (ids : jsval) (total retstart retmax : Z)
| PapersBody (papers : list paper) (total : nat)
| PaperBody (p : paperData).

Record http_response : Type := mkResponse {
  status : Z;
  body : response_body
}.

(** [res.json(b)] *)
Definition json (b : response_body) : http_response := mkResponse 200 b.
(** [res.status(st).json({ error })] *)
Definition fail (st : Z) (error : string) : http_response :=
  mkResponse st (ErrorBody error None).
(** [res.status(st).json({ error, details })] *)
Definition failWith (st : Z) (error : string) (details : jsval) : http_response :=
  mkResponse st (ErrorBody error (Some details)).

(** An incoming request: the method, the parsed query string
    ([req.query], an object, given by its fields) and the parsed body
    ([req.body]). *)
Record http_request : Type := mkRequest {
  method : string;
  query : list (string * jsval);
  reqBody : jsval
}.

Definition queryField (req : http_request) (k : string) : jsval :=
  match Val.lookup_field k (query req) with Some v => v | None => JUndefined end.

Definition SUPPORTED_DATABASES : list string := ["pubmed"; "pmc"].

(** [SUPPORTED_DATABASES.includes(db)] *)
Definition supported (db : jsval) : bool :=
  match db with
  | JStr s => existsb (String.eqb s) SUPPORTED_DATABASES
  | _ => false
  end.

Definition eutils : string := "https://eutils.ncbi.nlm.nih.gov/entrez/eutils/".

End Http.

Notation "'let!' x ':=' p 'in' q" := (Http.bind p (fun x => q))
  (at level 10, x pattern, p at level 100, q at level 200, only parsing).

(** ** [api/search.js] *)

Module Search.
Import Http.

(** [const { term, db = 'pmc', retstart = 0, retmax = 10 } = req.query] *)
Definition term (req : http_request) : jsval := queryField req "term".
Definition db (req : http_request) : jsval :=
  Val.withDefault (queryField req "db") (JStr "pmc").
Definition retstart (req : http_request) : jsval :=
  Val.withDefault (queryField req "retstart") (JNum 0).
Definition retmax (req : http_request) : jsval :=
  Val.withDefault (queryField req "retmax") (JNum 10).

(** The URL of step 1. *)
Definition searchUrl (req : http_request) : string :=
  eutils +:+ "esearch.fcgi?db=" +:+ Val.ToString (db req) +:+ "&term="
  +:+ Js.encodeURIComponent (Val.ToString (term req))
  +:+ "&usehistory=y&retmode=json".

(** The URL of step 2 (the source calls it [efetchUrl]). *)
Definition efetchUrl (req : http_request) (querykey webenv : jsval) (start max : Z)
    : string :=
  eutils +:+ "esearch.fcgi?db=" +:+ Val.ToString (db req)
  +:+ "&query_key=" +:+ Val.ToString querykey
  +:+ "&WebEnv=" +:+ Val.ToString webenv
  +:+ "&retstart=" +:+ Js.Z_to_string start
  +:+ "&retmax=" +:+ Js.Z_to_string max +:+ "&retmode=json".

(** [esearchResult && esearchResult.ERROR] *)
Definition embeddedError (esearchResult : jsval) : jsval :=
  if Val.truthy esearchResult
  then match Val.getProp esearchResult "ERROR" with
       | Some e => e
       | None => JUndefined
       end
  else esearchResult.

(** [(esearchResult && parseInt(esearchResult.count, 10)) || 0] *)
Definition countOf (esearchResult : jsval) : Z :=
  match (if Val.truthy esearchResult
         then match Val.getProp esearchResult "count" with
              | Some c => Val.parseInt c
              | None => None
              end
         else None) with
  | Some n => n
  | None => 0%Z
  end.

(** What follows the validation, with [start] and [max] parsed. *)
Definition search (req : http_request) (start max : Z) : prog http_response :=
  let! (searchStatus, searchData) := axiosGet (searchUrl req) in
  if negb (searchStatus =? 200)%Z then
    Ret (fail searchStatus
           ("ESearch History API Error: " +:+ Js.Z_to_string searchStatus))
  else
  let! esearchResult := readProp (as_json searchData) "esearchresult" in
  if Val.truthy (embeddedError esearchResult) then
    Ret (fail 500 ("ESearch History API Error: "
                   +:+ Val.ToString (embeddedError esearchResult)))
  else
  let count := countOf esearchResult in
  let! webenv := readProp esearchResult "webenv" in
  let! querykey := readProp esearchResult "querykey" in
  if negb (Val.truthy webenv) || negb (Val.truthy querykey) then
    Ret (fail 500 "ESearch History API did not return required WebEnv or QueryKey for pagination.")
  else if (count <=? start)%Z then
    Ret (json (SearchBody (JArr []) count start max))
  else
  let! (efetchStatus, efetchData) := axiosGet (efetchUrl req querykey webenv start max) in
  if negb (efetchStatus =? 200)%Z then
    Ret (fail efetchStatus
           ("ESearch API Error for specific IDs: " +:+ Js.Z_to_string efetchStatus))
  else
  let! esearchResultIds := readProp (as_json efetchData) "esearchresult" in
  if Val.truthy (embeddedError esearchResultIds) then
    Ret (fail 500 ("ESearch API Error for specific IDs: "
                   +:+ Val.ToString (embeddedError esearchResultIds)))
  else
  let! idlist := readProp esearchResultIds "idlist" in
  let idList := Val.orElse idlist (JArr []) in
  Ret (json (SearchBody idList count start max)).

(** The [try] block. *)
Definition handlerBody (req : http_request) : prog http_response :=
  if negb (Val.truthy (term req)) then Ret (fail 400 "Search term is required")
  else if negb (supported (db req)) then
    Ret (fail 400 ("Invalid database. Supported databases: "
                   +:+ Js.join ", " SUPPORTED_DATABASES))
  else
    let start := Val.parseInt (retstart req) in
    let max := Val.parseInt (retmax req) in
    match start with
    | None => Ret (fail 400 "retstart must be a non-negative integer")
    | Some start =>
        if (start <? 0)%Z then Ret (fail 400 "retstart must be a non-negative integer")
        else
          match max with
          | None => Ret (fail 400 "retmax must be a positive integer, max 10000")
          | Some max =>
              if (max <=? 0)%Z || (10000 <? max)%Z
              then Ret (fail 400 "retmax must be a positive integer, max 10000")
              else search req start max
          end
    end.

(** The [catch] block. *)
Definition handlerCatch (error : js_error) : prog http_response :=
  match response error with
  | Some (st, data) =>
      Ret (failWith st ("ESearch/ESearch API Error: " +:+ Js.Z_to_string st)
             (as_json data))
  | None =>
      if request error then
        Ret (failWith 500 "No response from ESearch/ESearch API" (JStr (message error)))
      else
        Ret (failWith 500 "Internal Server Error during search" (JStr (message error)))
  end.

Definition handler (req : http_request) : prog http_response :=
  if (method req =? "OPTIONS")%string then Ret (mkResponse 200 NoBody)
  else if negb (method req =? "GET")%string then Ret (fail 405 "Method not allowed")
  else tryCatch (handlerBody req) handlerCatch.

End Search.

(** ** [api/papers.js] *)

Module Papers.
Import Dom Sanitizer Normalizer Enrichment Http.

(** [const { ids, db = 'pmc', ... } = req.body]: a body that is
    [undefined] or [null] cannot be destructured. *)
Definition destructure (b : jsval) (k : string) : prog jsval :=
  match Val.getProp b k with
  | Some v => Ret v
  | None =>
      Throw (thrown ("Cannot destructure property '" +:+ k
                     +:+ "' of 'req.body' as it is " +:+ Val.ToString b +:+ "."))
  end.

(** The filter callback [id => id !== '' && id.trim() !== ''] on a
    cleaned id: only a string has a [trim] to call. *)
Definition keepId (id : jsval) : prog bool :=
  match id with
  | JStr s => Ret (nonEmpty s && nonEmpty (Js.trim s))
  | JUndefined | JNull =>
      Throw (thrown ("Cannot read properties of " +:+ Val.ToString id
                     +:+ " (reading 'trim')"))
  | _ => Throw (thrown "id.trim is not a function")
  end.

Fixpoint filterIds (ids : list jsval) : prog (list jsval) :=
  match ids with
  | [] => Ret []
  | id :: rest =>
      let! keep := keepId id in
      let! kept := filterIds rest in
      Ret (if keep then id :: kept else kept)
  end.

(** The first pass over the fetched document. *)
Definition normalize (db : string) (xmlDoc : node) : option (list paper) :=
  if (db =? "pubmed")%string then
    Some (map normalizePubmed (docQuerySelectorAll (tag "PubmedArticle") xmlDoc))
  else if (db =? "pmc")%string then
    Some (map normalizePmc (docQuerySelectorAll (tag "article") xmlDoc))
  else None.

Definition efetchUrl (db idStr : string) : string :=
  eutils +:+ "efetch.fcgi?db=" +:+ db +:+ "&id=" +:+ idStr +:+ "&retmode=xml".

(** The second [if (db === 'pubmed')] block. *)
Definition enrichment (db : string) (papers : list paper) : prog (list paper) :=
  if (db =? "pubmed")%string then
    let pmcIds := map pmcid (filter (fun p => nonEmpty (pmcid p) = true) papers) in
    if (0 <? length pmcIds)%nat then
      let pmcEfetchUrl := efetchUrl "pmc" (Js.join "," pmcIds) in
      let! (_, pmcData) := axiosGet pmcEfetchUrl in
      let! pmcXmlDoc := parseXml pmcData in
      let pmcArticles := docQuerySelectorAll (tag "article") pmcXmlDoc in
      Ret (enrich papers pmcArticles)
    else Ret papers
  else Ret papers.

(** The [try] block. *)
Definition handlerBody (req : http_request) : prog http_response :=
  let! ids := destructure (reqBody req) "ids" in
  let! db0 := destructure (reqBody req) "db" in
  let db := Val.withDefault db0 (JStr "pmc") in
  match ids with
  | JArr (id0 :: ids') =>
      if negb (supported db) then
        Ret (fail 400 ("Invalid database. Supported databases: "
                       +:+ Js.join ", " SUPPORTED_DATABASES))
      else
      let! cleanedIds := filterIds (map cleanPmcId (id0 :: ids')) in
      if (length cleanedIds =? 0)%nat then
        Ret (fail 400 "No valid IDs provided after cleaning.")
      else
      let idStr := Js.join "," (map Val.ToString cleanedIds) in
      let! (_, data) := axiosGet (efetchUrl (Val.ToString db) idStr) in
      let! xmlDoc := parseXml data in
      match normalize (Val.ToString db) xmlDoc with
      | Some papers =>
          let! papers := enrichment (Val.ToString db) papers in
          Ret (json (PapersBody papers (length papers)))
      | None =>
          Ret (fail 400 ("Unsupported database for EFetch: " +:+ Val.ToString db))
      end
  | _ => Ret (fail 400 "IDs array is required and cannot be empty")
  end.

(** The [catch] block. *)
Definition handlerCatch (error : js_error) : prog http_response :=
  Ret (failWith 500 "Failed to fetch papers" (JStr (message error))).

Definition handler (req : http_request) : prog http_response :=
  if (method req =? "OPTIONS")%string then Ret (mkResponse 200 NoBody)
  else if negb (method req =? "POST")%string then Ret (fail 405 "Method not allowed")
  else tryCatch (handlerBody req) handlerCatch.

End Papers.

(** ** [api/paper/[id].js] *)

Module PaperById.
Import Dom Sanitizer Normalizer Http.

(** [paperData]: the statements that compute its fields are those of the
    batch loop bodies, and the object literal leaves [authorsArray] out. *)
Definition toPaperData (p : paper) : paperData :=
  {| pd_pmcid := pmcid p;
     pd_uid := uid p;
     pd_title := title p;
     pd_articletitle := articletitle p;
     pd_sortfirstauthor := sortfirstauthor p;
     pd_authors := authors p;
     pd_source := source p;
     pd_pubdate := pubdate p;
     pd_pdfUrl := pdfUrl p |}.

Definition efetchUrl (db id : string) : string :=
  eutils +:+ "efetch.fcgi?db=" +:+ db +:+ "&id=" +:+ Js.encodeURIComponent id
  +:+ "&retmode=xml".

(** The [try] block. *)
Definition handlerBody (id : jsval) : prog http_response :=
  let! pubmedId :=
    match id with
    | JStr s => Ret (Js.trim s)
    | _ => Throw (thrown "id.trim is not a function")
    end in
  if (pubmedId =? "$")%string || (Js.trim pubmedId =? "")%string then
    Ret (fail 400 "Invalid Paper ID provided.")
  else
  let! (_, data) := axiosGet (efetchUrl "pubmed" pubmedId) in
  let! xmlDoc := parseXml data in
  match docQuerySelector (tag "PubmedArticle") xmlDoc with
  | None =>
      let pmcId := pubmedId in
      let! (_, dataPMC) := axiosGet (efetchUrl "pmc" pmcId) in
      let! xmlDocPMC := parseXml dataPMC in
      match docQuerySelector (tag "article") xmlDocPMC with
      | None =>
          match docQuerySelector (tag "ERROR") xmlDocPMC with
          | Some errorElement =>
              Ret (failWith 404 "No article found in PubMed or PMC."
                     (JStr (textContent errorElement)))
          | None => Ret (fail 404 "No article found in PubMed or PMC.")
          end
      | Some articlePMC =>
          Ret (json (PaperBody (toPaperData (normalizePmc articlePMC))))
      end
  | Some pubmedArticle =>
      Ret (json (PaperBody (toPaperData (normalizePubmed pubmedArticle))))
  end.

(** The [catch] block. *)
Definition handlerCatch (error : js_error) : prog http_response :=
  Ret (failWith 500 "Failed to fetch paper details" (JStr (message error))).

Definition handler (req : http_request) : prog http_response :=
  if (method req =? "OPTIONS")%string then Ret (mkResponse 200 NoBody)
  else if negb (method req =? "GET")%string then Ret (fail 405 "Method not allowed")
  else
    let id := queryField req "id" in
    if negb (Val.truthy id) then Ret (fail 400 "Paper ID is required")
    else tryCatch (handlerBody id) handlerCatch.

End PaperById.

(** ** Vocabulary of the properties *)

Module Spec.
Import Dom Normalizer.

(** *** The sanitiser *)

(** The string starts with PMC in some casing. *)
Definition hasPmcPrefix (s : string) : bool :=
  match s with
  | String a (String b (String c _)) =>
      existsb (Ascii.eqb a) ["P"; "p"]%char
      && existsb (Ascii.eqb b) ["M"; "m"]%char
      && existsb (Ascii.eqb c) ["C"; "c"]%char
  | _ => false
  end.

(** *** Padding *)

(** [k] copies of the code unit [c]. *)
Fixpoint copies (c : ascii) (k : nat) : string :=
  match k with
  | O => EmptyString
  | S k' => String c (copies c k')
  end.

(** [out] is [src] left-padded with [c] to [width]: copies of [c] in
    front of [src], as many as the width asks for and none when [src] is
    wide enough. *)
Definition leftPadded (width : nat) (c : ascii) (src out : string) : Prop :=
  exists k, out = copies c k +:+ src
            /\ String.length out = Nat.max width (String.length src).

(** *** The PDF link of a PMC article, as a chain of fallbacks *)

(** The href of a [self-uri] element that counts as a PDF link: the
    element has a [content-type] attribute containing "pdf" in any casing
    and a non-empty [xlink:href]. *)
Definition pdfSelfUri (selfUri : element) : option string :=
  match getAttribute "content-type" selfUri, getAttribute "xlink:href" selfUri with
  | Some contentType, Some href =>
      if Js.includes "pdf" (Js.toLowerCase contentType) && nonEmpty href
      then Some href else None
  | _, _ => None
  end.

(** Step (1): the PDF href of the first [self-uri] element of the article,
    in document order; no other [self-uri] element is looked at. *)
Definition selfUriPdfHref (article : element) : option string :=
  match querySelector (tag "self-uri") article with
  | Some selfUri => pdfSelfUri selfUri
  | None => None
  end.

(** Step (1) read as "some [self-uri] element is a PDF link": the PDF href
    of the first [self-uri] element that has one, wherever it stands. *)
Definition anySelfUriPdfHref (article : element) : option string :=
  head (omap pdfSelfUri (querySelectorAll (tag "self-uri") article)).

(** Step (2): the first href among the [ext-link] elements that ends in
    ".pdf" in any casing. *)
Definition extLinkPdfHref (article : element) : option string :=
  List.find (fun href => Js.endsWith ".pdf" (Js.toLowerCase href))
    (omap (getAttribute "xlink:href") (querySelectorAll (tag "ext-link") article)).

(** (1), else (2), else (3) the template URL; [selfUri] is the outcome of
    step (1). *)
Definition pdfChain (selfUri : option string) (article : element) (template : string)
    : string :=
  match selfUri with
  | Some href => if Js.startsWith "http" href then href else template
  | None =>
      match extLinkPdfHref article with
      | Some href => href
      | None => template
      end
  end.

(** *** The join of the enrichment pass *)

(** The sanitised [pmcid] of a returned PMC article. *)
Definition articleId (article : element) : string :=
  Sanitizer.cleanPmcIdStr (textOr selPmcId article).

(** [i] is the first index of [papers] whose record has the [pmcid]
    [k]. *)
Definition firstWith (k : string) (papers : list paper) (i : nat) : Prop :=
  (pmcid <$> papers) !! i = Some k
  /\ forall j, (j < i)%nat -> (pmcid <$> papers) !! j <> Some k.

(** The year a PMC article gives: the trimmed text of the [year] under
    its [pub-date], empty when either is missing. *)
Definition pubYear (article : element) : string :=
  match querySelector (tag "pub-date") article with
  | Some pubDateElement => trimmedTextOr (tag "year") pubDateElement
  | None => ""
  end.

(** *** The validation policy of the search endpoint *)

(** [retstart] parses as a non-negative integer. *)
Definition startOk (req : Http.http_request) : bool :=
  match Val.parseInt (Search.retstart req) with
  | Some n => (0 <=? n)%Z
  | None => false
  end.

(** [retmax] parses as a positive integer, at most 10000. *)
Definition maxOk (req : Http.http_request) : bool :=
  match Val.parseInt (Search.retmax req) with
  | Some n => (0 <? n)%Z && (n <=? 10000)%Z
  | None => false
  end.

(** *** Rejected upstream calls *)

(** [p] awaits its GETs the way the handlers do: a rejected GET throws the
    rejection on the spot, whatever came before it. *)
Inductive throwsRejections {A : Type} : Http.prog A -> Prop :=
| tr_ret (a : A) : throwsRejections (Http.Ret a)
| tr_throw (e : Http.js_error) : throwsRejections (Http.Throw e)
| tr_get (url : string) (k : Http.axios_outcome -> Http.prog A) :
    (forall e, k (Http.Rejected e) = Http.Throw e) ->
    (forall st data, throwsRejections (k (Http.Fulfilled st data))) ->
    throwsRejections (Http.Get url k).

(** The article elements the first pass of the batch endpoint turns into
    records. *)
Definition articleElements (db : string) (xmlDoc : node) : list element :=
  docQuerySelectorAll
    (tag (if (db =? "pubmed")%string then "PubmedArticle" else "article")) xmlDoc.

End Spec.

(** ** Sample documents *)

Module Samples.
Import Dom.

Definition leaf (name text : string) : node := Elem name [] [Text text].

(** A PubMed article dated 2021, 3, 7. *)
Definition pubmed_2021_3_7 : element :=
  mkElement [] "PubmedArticle" []
    [Elem "MedlineCitation" []
       [leaf "PMID" "111";
        Elem "Article" []
          [Elem "Journal" []
             [Elem "JournalIssue" []
                [Elem "PubDate" []
                   [leaf "Year" "2021"; leaf "Month" "3"; leaf "Day" "7"]]]]]].

(** A PubMed article with no [PubDate], and a [Year] under a [PubStatus]
    element. *)
Definition pubmed_no_PubDate : element :=
  mkElement [] "PubmedArticle" []
    [Elem "PubmedData" [] [Elem "PubStatus" [] [leaf "Year" "2020"]]].

(** A PubMed article whose [PubDate] holds no [Year], [Month] or [Day],
    and a [Year] under a [PubStatus] element. *)
Definition pubmed_blank_PubDate : element :=
  mkElement [] "PubmedArticle" []
    [Elem "MedlineCitation" []
       [Elem "PubDate" [] [leaf "MedlineDate" "2020 Spring"]];
     Elem "PubmedData" [] [Elem "PubStatus" [] [leaf "Year" " 2020 "]]].

(** A PMC article with id 9999 and no PDF link. *)
Definition pmc_9999 : element :=
  mkElement [("pmc-articleset", [])] "article" []
    [Elem "front" []
       [Elem "article-meta" []
          [Elem "article-id" [("pub-id-type", "pmc")] [Text "9999"];
           Elem "title-group" [] [leaf "article-title" "A title"]]]].

(** A PMC article with two [self-uri] elements, the second one the PDF. *)
Definition pmc_two_self_uri : element :=
  mkElement [("pmc-articleset", [])] "article" []
    [Elem "front" []
       [Elem "article-meta" []
          [Elem "article-id" [("pub-id-type", "pmc")] [Text "PMC42"];
           Elem "self-uri" [("xlink:href", "https://example.org/a.html")] [];
           Elem "self-uri" [("content-type", "pdf");
                            ("xlink:href", "https://example.org/a.pdf")] []]]].

(** A PubMed answer with one article, cross-referenced to PMC9999. *)
Definition pubmed_doc : node :=
  Elem "PubmedArticleSet" []
    [Elem "PubmedArticle" []
       [Elem "MedlineCitation" []
          [leaf "PMID" "111";
           Elem "Article" []
             [Elem "Journal" []
                [Elem "JournalIssue" []
                   [Elem "PubDate" []
                      [leaf "Year" "2021"; leaf "Month" "3"; leaf "Day" "7"]];
                 leaf "Title" "PubMed journal"];
              leaf "ArticleTitle" "PubMed title";
              Elem "Abstract" [] [leaf "AbstractText" "PubMed abstract"];
              Elem "AuthorList" []
                [Elem "Author" [] [leaf "LastName" "Doe"; leaf "ForeName" "Jane"]]]];
        Elem "PubmedData" []
          [Elem "ArticleIdList" []
             [Elem "ArticleId" [("IdType", "pubmed")] [Text "111"];
              Elem "ArticleId" [("IdType", "pmc")] [Text "PMC9999"]]]]].

(** A PMC answer for PMC9999 that has an author, and no title, abstract,
    journal or date. *)
Definition pmc_doc_bare : node :=
  Elem "pmc-articleset" []
    [Elem "article" []
       [Elem "front" []
          [Elem "article-meta" []
             [Elem "article-id" [("pub-id-type", "pmc")] [Text "PMC9999"];
              Elem "contrib-group" []
                [Elem "contrib" [("contrib-type", "author")]
                   [Elem "name" [] [leaf "surname" "Doe"; leaf "given-names" "J."]]]]]]].

(** A PMC article 9999 with every field, and the PMC answer that holds
    it. *)
Definition pmc_full_content : list node :=
  [Elem "front" []
     [Elem "journal-meta" [] [leaf "journal-title" "PMC journal"];
      Elem "article-meta" []
        [Elem "article-id" [("pub-id-type", "pmc")] [Text "PMC9999"];
         Elem "title-group" [] [leaf "article-title" "PMC title"];
         Elem "contrib-group" []
           [Elem "contrib" [("contrib-type", "author")]
              [Elem "name" [] [leaf "surname" "Doe"; leaf "given-names" "J."]]];
         Elem "pub-date" [] [leaf "day" "1"; leaf "month" "12"; leaf "year" "2020"];
         Elem "abstract" [] [leaf "p" "PMC abstract"]]]].

Definition pmc_article_full : element :=
  mkElement [("pmc-articleset", [])] "article" [] pmc_full_content.

Definition pmc_doc_full : node :=
  Elem "pmc-articleset" [] [Elem "article" [] pmc_full_content].

Definition pubmed_papers : list Normalizer.paper :=
  map Normalizer.normalizePubmed (docQuerySelectorAll (tag "PubmedArticle") pubmed_doc).

(** The upstream that answers the first GET with [first] and every later
    one with [second], both as XML. *)
Definition xmlUpstream (first second : node) : Http.upstream :=
  fun calls _ =>
    match calls with
    | [] => Http.Fulfilled 200 (Http.mkPayload JNull (inr first))
    | _ => Http.Fulfilled 200 (Http.mkPayload JNull (inr second))
    end.

(** [POST /api/papers] with [{ ids, db }]. *)
Definition papersRequest (ids : list string) (db : string) : Http.http_request :=
  Http.mkRequest "POST" []
    (JObj [("ids", JArr (map JStr ids)); ("db", JStr db)]).


(** [GET /api/search] with the four parameters. *)
Definition searchRequest (term db retstart retmax : string) : Http.http_request :=
  Http.mkRequest "GET"
    [("term", JStr term); ("db", JStr db);
     ("retstart", JStr retstart); ("retmax", JStr retmax)]
    JUndefined.

(** An esearch answer with both session tokens. *)
Definition esearchResult (count : string) (ids : list string) : jsval :=
  JObj [("count", JStr count); ("webenv", JStr "MCID_1"); ("querykey", JStr "1");
        ("idlist", JArr (map JStr ids))].

Definition esearchPayload (count : string) (ids : list string) : Http.payload :=
  Http.mkPayload (JObj [("esearchresult", esearchResult count ids)])
    (inl "not an XML document").

(** The upstream that answers every GET with that esearch answer. *)
Definition esearchUpstream (count : string) (ids : list string) : Http.upstream :=
  fun _ _ => Http.Fulfilled 200 (esearchPayload count ids).

(** An upstream that answers 404 to every GET. *)
Definition notFound : Http.js_error :=
  Http.mkError "Request failed with status code 404"
    (Some (404%Z, Http.mkPayload (JStr "Not Found") (inl "not an XML document")))
    true.

Definition notFoundUpstream : Http.upstream := fun _ _ => Http.Rejected notFound.

End Samples.

(** ** Vocabulary of the further properties *)

Module Props.
Import Dom Normalizer.

(** *** Trimmed text *)

(** The string does not start with white space. *)
Definition startsClean (s : string) : Prop :=
  match s with
  | String c _ => Js.isWhiteSpace c = false
  | EmptyString => True
  end.

(** The string does not end with white space. *)
Fixpoint endsClean (s : string) : Prop :=
  match s with
  | EmptyString => True
  | String c EmptyString => Js.isWhiteSpace c = false
  | String _ s' => endsClean s'
  end.

(** No white space at either end. *)
Definition trimmed (s : string) : Prop := startsClean s /\ endsClean s.

(** The three text fields of a record that the code trims. *)
Definition textTrimmed (r : paper) : Prop :=
  trimmed (title r) /\ trimmed (articletitle r) /\ trimmed (source r).

(** *** Upstream calls *)

(** [p] makes at most [n] upstream calls, whatever the upstream answers. *)
Inductive callsAtMost {A : Type} : nat -> Http.prog A -> Prop :=
| cam_ret (n : nat) (a : A) : callsAtMost n (Http.Ret a)
| cam_throw (n : nat) (e : Http.js_error) : callsAtMost n (Http.Throw e)
| cam_get (n : nat) (url : string) (k : Http.axios_outcome -> Http.prog A) :
    (forall o, callsAtMost n (k o)) -> callsAtMost (S n) (Http.Get url k).

(** The ids of a batch request that reach the efetch URL: each without one
    leading PMC prefix, and kept when what is left is not blank. *)
Definition keptIds (ids : list string) : list string :=
  filter (fun id => nonEmpty id && nonEmpty (Js.trim id) = true)
         (map (fun id => if Spec.hasPmcPrefix id then Js.drop 3 id else id) ids).

(** The cross-reference ids of the first pass, in record order. *)
Definition crossRefs (papers : list paper) : list string :=
  map pmcid (filter (fun p => nonEmpty (pmcid p) = true) papers).

(** *** Records *)

(** The author fields of a record agree with its [authorsArray]. *)
Definition authorsConsistent (r : paper) : Prop :=
  authors r = Js.join ", " (authorsArray r)
  /\ sortfirstauthor r = hd "Unknown" (authorsArray r)
  /\ Forall (fun name => name <> "") (authorsArray r).

(** An article element with nothing but text in it. *)
Definition textOnly (text : string) (name : string) : element :=
  mkElement [] name [] [Text text].

(** A PubMed article dated by a year and a day, with no month. *)
Definition pubmed_year_day : element :=
  mkElement [] "PubmedArticle" []
    [Elem "PubDate" [] [Elem "Year" [] [Text "2019"]; Elem "Day" [] [Text "17"]]].

(** A PubMed record with no cross-reference, and a PMC article with no pmc
    id. *)
Definition paper_without_xref : paper :=
  normalizePubmed
    (mkElement [] "PubmedArticle" []
       [Elem "PMID" [] [Text "222"]; Elem "ArticleTitle" [] [Text "Not in PMC"]]).

Definition pmc_without_id : element :=
  mkElement [] "article" [] [Elem "article-title" [] [Text "Somebody else's title"]].

(** *** Requests *)

(** [ids && Array.isArray(ids) && ids.length !== 0] *)
Definition nonEmptyArray (ids : jsval) : bool :=
  match ids with
  | JArr (_ :: _) => true
  | _ => false
  end.

Definition isString (v : jsval) : bool :=
  match v with JStr _ => true | _ => false end.

(** The [db] a batch request asks for, with its default. *)
Definition papersDb (db : jsval) : jsval := Val.withDefault db (JStr "pmc").

(** A batch request whose ids are only the prefix or blanks. *)
Definition blankIdsRequest : Http.http_request :=
  Http.mkRequest "POST" [] (JObj [("ids", JArr [JStr "PMC"; JStr "pmc  "; JStr ""])]).

(** A GET that passes the validation of the search endpoint, with the
    parsed [retstart] and [retmax]; [retstart] is in the range JavaScript
    numbers hold exactly. *)
Definition validSearch (req : Http.http_request) (start max : Z) : Prop :=
  Http.method req = "GET"
  /\ Val.truthy (Search.term req) = true
  /\ Http.supported (Search.db req) = true
  /\ Val.parseInt (Search.retstart req) = Some start
  /\ (0 <= start <= 9007199254740991)%Z
  /\ Val.parseInt (Search.retmax req) = Some max /\ (0 < max <= 10000)%Z.

(** An esearch answer is usable for paging: no embedded error, and both
    session tokens. *)
Definition hasTokens (esearchResult webenv querykey : jsval) : Prop :=
  Val.truthy (Search.embeddedError esearchResult) = false
  /\ Val.getProp esearchResult "webenv" = Some webenv /\ Val.truthy webenv = true
  /\ Val.getProp esearchResult "querykey" = Some querykey /\ Val.truthy querykey = true.


(** A code unit that [encodeURIComponent] may produce. *)
Definition uriSafe (c : ascii) : Prop := Js.uriUnreserved c = true \/ c = "%"%char.

(** A single-paper request for [id]. *)
Definition paperRequest (id : string) : Http.http_request :=
  Http.mkRequest "GET" [("id", JStr id)] JUndefined.


End Props.

(** * Properties *)

(** ** Strings *)

Lemma eqb_empty_false (c : ascii) (s : string) : (String c s =? "")%string = false.
Proof. reflexivity. Qed.

Lemma nonEmpty_true (s : string) : Normalizer.nonEmpty s = true <-> s <> "".
Proof.
  unfold Normalizer.nonEmpty. destruct s; simpl; split; intros H; congruence.
Qed.

Lemma orElse_nonEmpty (a b : string) : a <> "" -> Js.orElse a b = a.
Proof. intros H. unfold Js.orElse. destruct a; [congruence | reflexivity]. Qed.

Lemma length_append (a b : string) :
  String.length (a +:+ b) = (String.length a + String.length b)%nat.
Proof. induction a as [|c a IH]; simpl; [reflexivity | now rewrite IH]. Qed.

(** ** The ID sanitiser *)

Section CaseFolding.

Local Ltac by_code_unit b :=
  destruct b as [[] [] [] [] [] [] [] []]; reflexivity.

Lemma fold_P (b : ascii) :
  Ascii.eqb (Sanitizer.canonicalize "P") (Sanitizer.canonicalize b)
  = existsb (Ascii.eqb b) ["P"; "p"]%char.
Proof. by_code_unit b. Qed.

Lemma fold_M (b : ascii) :
  Ascii.eqb (Sanitizer.canonicalize "M") (Sanitizer.canonicalize b)
  = existsb (Ascii.eqb b) ["M"; "m"]%char.
Proof. by_code_unit b. Qed.

Lemma fold_C (b : ascii) :
  Ascii.eqb (Sanitizer.canonicalize "C") (Sanitizer.canonicalize b)
  = existsb (Ascii.eqb b) ["C"; "c"]%char.
Proof. by_code_unit b. Qed.

End CaseFolding.

Lemma matchLiteral_PMC (s : string) :
  Sanitizer.matchLiteral "PMC" s
  = if Spec.hasPmcPrefix s then Some (Js.drop 3 s) else None.
Proof.
  destruct s as [|a [|b [|c r]]]; cbn [Sanitizer.matchLiteral Spec.hasPmcPrefix Js.drop];
    rewrite ?fold_P, ?fold_M, ?fold_C; try reflexivity;
    repeat (destruct (existsb _ _); cbn [andb]; try reflexivity).
Qed.

Lemma matchLiteral_pmc (s : string) :
  Sanitizer.matchLiteral "pmc" s = Sanitizer.matchLiteral "PMC" s.
Proof.
  destruct s as [|a [|b [|c r]]]; cbn [Sanitizer.matchLiteral]; try reflexivity.
Qed.

Lemma cleanPmcIdStr_eq (s : string) :
  Sanitizer.cleanPmcIdStr s = if Spec.hasPmcPrefix s then Js.drop 3 s else s.
Proof.
  unfold Sanitizer.cleanPmcIdStr. rewrite matchLiteral_pmc, matchLiteral_PMC.
  destruct (Spec.hasPmcPrefix s); reflexivity.
Qed.

Lemma hasPmcPrefix_drop_length (s : string) :
  Spec.hasPmcPrefix s = true ->
  String.length s = (3 + String.length (Js.drop 3 s))%nat.
Proof. destruct s as [|a [|b [|c r]]]; simpl; intros H; congruence. Qed.

Lemma cleanPmcIdStr_fixed (s : string) :
  Sanitizer.cleanPmcIdStr s = s <-> Spec.hasPmcPrefix s = false.
Proof.
  rewrite cleanPmcIdStr_eq.
  destruct (Spec.hasPmcPrefix s) eqn:E; split; intros H; try congruence.
  apply hasPmcPrefix_drop_length in E. rewrite H in E. lia.
Qed.

(** C2, as the code has it: the sanitiser removes one leading PMC prefix
    (any casing) from a string and returns any other value as it is.  The
    result of a string is free of a leading PMC prefix, and sanitising twice
    is the same as sanitising once, exactly when the input does not begin
    with two PMC prefixes in a row. *)
Theorem cleanPmcId_strips_one_prefix (id : jsval) :
  match id with
  | JStr s =>
      Sanitizer.cleanPmcId id
      = JStr (if Spec.hasPmcPrefix s then Js.drop 3 s else s)
      /\ (Spec.hasPmcPrefix (Sanitizer.cleanPmcIdStr s) = false
          <-> Spec.hasPmcPrefix s && Spec.hasPmcPrefix (Js.drop 3 s) = false)
      /\ (Sanitizer.cleanPmcId (Sanitizer.cleanPmcId id) = Sanitizer.cleanPmcId id
          <-> Spec.hasPmcPrefix s && Spec.hasPmcPrefix (Js.drop 3 s) = false)
  | _ => Sanitizer.cleanPmcId id = id
  end.
Proof.
  destruct id as [| | | | |s| |]; try reflexivity.
  assert (Hfree : Spec.hasPmcPrefix (Sanitizer.cleanPmcIdStr s) = false
                  <-> Spec.hasPmcPrefix s && Spec.hasPmcPrefix (Js.drop 3 s) = false).
  { rewrite cleanPmcIdStr_eq.
    destruct (Spec.hasPmcPrefix s) eqn:E; simpl; [tauto |].
    rewrite E. tauto. }
  split; [| split].
  - simpl. now rewrite cleanPmcIdStr_eq.
  - exact Hfree.
  - rewrite <- Hfree, <- cleanPmcIdStr_fixed. simpl. split; congruence.
Qed.

(** C2, counterexample to the claim as stated: the sanitised form of
    ["PMCPMC1"] still starts with PMC, and sanitising it again changes it. *)
Lemma cleanPmcId_not_idempotent :
  Sanitizer.cleanPmcId (JStr "PMCPMC1") = JStr "PMC1"
  /\ Spec.hasPmcPrefix "PMC1" = true
  /\ Sanitizer.cleanPmcId (Sanitizer.cleanPmcId (JStr "PMCPMC1"))
     <> Sanitizer.cleanPmcId (JStr "PMCPMC1").
Proof. repeat split. discriminate. Qed.

(** ** Publication dates *)

Lemma fillTo_single (c : ascii) (n : nat) (cur : string) :
  cur = "" \/ cur = String c "" ->
  Js.fillTo (String c "") cur n = Spec.copies c n.
Proof.
  revert cur. induction n as [|n IH]; intros cur Hcur; [reflexivity |].
  destruct Hcur as [-> | ->]; simpl; f_equal; apply IH; auto.
Qed.

Lemma copies_length (c : ascii) (k : nat) : String.length (Spec.copies c k) = k.
Proof. induction k as [|k IH]; simpl; [reflexivity | now rewrite IH]. Qed.

Lemma padStart_leftPadded (width : nat) (c : ascii) (s : string) :
  Spec.leftPadded width c s (Js.padStart width (String c "") s).
Proof.
  unfold Js.padStart, Spec.leftPadded. rewrite eqb_empty_false, orb_false_r.
  destruct (Nat.leb_spec width (String.length s)) as [Hle | Hlt].
  - exists 0%nat. split; [reflexivity | lia].
  - exists (width - String.length s)%nat.
    rewrite fillTo_single by auto. split; [reflexivity |].
    rewrite length_append, copies_length. lia.
Qed.

Lemma pubdate_normalizePubmed (a : Dom.element) :
  Normalizer.pubdate (Normalizer.normalizePubmed a) = Normalizer.pubmedPubDate a.
Proof.
  unfold Normalizer.normalizePubmed. destruct (Normalizer.pubmedAuthors a). reflexivity.
Qed.

Lemma nonEmpty_of_ne (s : string) : s <> "" -> Normalizer.nonEmpty s = true.
Proof. apply nonEmpty_true. Qed.

(** C4: when the [PubDate] of a PubMed article yields a year, a month and a
    day (their trimmed texts are not empty), [pubdate] is year-month-day
    with month and day left-padded with ['0'] to width 2, whatever their
    lengths. *)
Theorem pubmed_pubdate_three_parts
    (pubmedArticle pubDateElement : Dom.element) (year month day : string) :
  Dom.querySelector (Dom.tag "PubDate") pubmedArticle = Some pubDateElement ->
  Normalizer.trimmedTextOr (Dom.tag "Year") pubDateElement = year ->
  Normalizer.trimmedTextOr (Dom.tag "Month") pubDateElement = month ->
  Normalizer.trimmedTextOr (Dom.tag "Day") pubDateElement = day ->
  year <> "" -> month <> "" -> day <> "" ->
  exists mm dd,
    Normalizer.pubdate (Normalizer.normalizePubmed pubmedArticle)
    = year +:+ "-" +:+ mm +:+ "-" +:+ dd
    /\ Spec.leftPadded 2 "0" month mm
    /\ Spec.leftPadded 2 "0" day dd.
Proof.
  intros Hpd Hy Hm Hd Hy0 Hm0 Hd0.
  exists (Js.padStart 2 "0" month), (Js.padStart 2 "0" day).
  split; [| split; apply padStart_leftPadded].
  rewrite pubdate_normalizePubmed. unfold Normalizer.pubmedPubDate.
  rewrite Hpd, Hy, Hm, Hd. unfold Normalizer.composeDate.
  now rewrite !nonEmpty_of_ne by assumption.
Qed.

Lemma pubmed_pubdate_three_parts_witness :
  exists mm dd,
    Normalizer.pubdate (Normalizer.normalizePubmed Samples.pubmed_2021_3_7)
    = "2021" +:+ "-" +:+ mm +:+ "-" +:+ dd
    /\ Spec.leftPadded 2 "0" "3" mm
    /\ Spec.leftPadded 2 "0" "7" dd.
Proof.
  eapply (pubmed_pubdate_three_parts Samples.pubmed_2021_3_7);
    first [ reflexivity | discriminate ].
Defined.

Example pubmed_pubdate_2021_03_07 :
  Normalizer.pubdate (Normalizer.normalizePubmed Samples.pubmed_2021_3_7) = "2021-03-07".
Proof. reflexivity. Qed.

(** C5, as the code has it: when a PubMed article has a [PubDate] element
    under which none of [Year], [Month], [Day] yields a value, [pubdate] is
    the trimmed text of the first [PubStatus > Year] element, and the empty
    string when there is none. *)
Theorem pubmed_pubdate_fallback (pubmedArticle pubDateElement : Dom.element) :
  Dom.querySelector (Dom.tag "PubDate") pubmedArticle = Some pubDateElement ->
  Normalizer.trimmedTextOr (Dom.tag "Year") pubDateElement = "" ->
  Normalizer.trimmedTextOr (Dom.tag "Month") pubDateElement = "" ->
  Normalizer.trimmedTextOr (Dom.tag "Day") pubDateElement = "" ->
  Normalizer.pubdate (Normalizer.normalizePubmed pubmedArticle)
  = match Dom.querySelector (Dom.child "PubStatus" "Year") pubmedArticle with
    | Some fallbackYear => Js.trim (Dom.textContent fallbackYear)
    | None => ""
    end.
Proof.
  intros Hpd Hy Hm Hd.
  rewrite pubdate_normalizePubmed. unfold Normalizer.pubmedPubDate.
  rewrite Hpd, Hy, Hm, Hd. cbn [Normalizer.composeDate Normalizer.nonEmpty].
  unfold Normalizer.composeDate. cbn.
  unfold Normalizer.trimmedTextOr, Dom.textOf.
  destruct (Dom.querySelector (Dom.child "PubStatus" "Year") pubmedArticle) as [e|];
    cbn; [| reflexivity].
  unfold Js.orElse. destruct (Js.trim (Dom.textContent e)); reflexivity.
Qed.

Lemma pubmed_pubdate_fallback_witness :
  Normalizer.pubdate (Normalizer.normalizePubmed Samples.pubmed_blank_PubDate)
  = match Dom.querySelector (Dom.child "PubStatus" "Year") Samples.pubmed_blank_PubDate with
    | Some fallbackYear => Js.trim (Dom.textContent fallbackYear)
    | None => ""
    end.
Proof.
  eapply (pubmed_pubdate_fallback Samples.pubmed_blank_PubDate); reflexivity.
Defined.

Example pubmed_pubdate_fallback_2020 :
  Normalizer.pubdate (Normalizer.normalizePubmed Samples.pubmed_blank_PubDate) = "2020".
Proof. reflexivity. Qed.

(** C5, counterexample to the claim as stated: an article with no [PubDate]
    element has nothing under [PubDate] that yields a value, and has a
    [PubStatus > Year] element with text 2020, yet its [pubdate] is empty:
    the fallback is only read inside [if (pubDateElement)]. *)
Lemma pubmed_pubdate_no_fallback_without_PubDate :
  Dom.querySelector (Dom.tag "PubDate") Samples.pubmed_no_PubDate = None
  /\ Normalizer.trimmedTextOr (Dom.child "PubStatus" "Year") Samples.pubmed_no_PubDate = "2020"
  /\ Normalizer.pubdate (Normalizer.normalizePubmed Samples.pubmed_no_PubDate) = ""
  /\ Normalizer.pubdate (Normalizer.normalizePubmed Samples.pubmed_no_PubDate)
     <> Normalizer.trimmedTextOr (Dom.child "PubStatus" "Year") Samples.pubmed_no_PubDate.
Proof. repeat split. discriminate. Qed.

(** ** The PDF link of a PMC article *)

Lemma endsPdf_nonEmpty (s : string) :
  Js.endsWith ".pdf" (Js.toLowerCase s) = true -> Normalizer.nonEmpty s = true.
Proof. destruct s; [discriminate | reflexivity]. Qed.

(** The loop over the [ext-link] elements finds the first PDF href, and
    leaves the variable as it was when there is none. *)
Lemma extLinkLoop_find (links : list Dom.element) (pdfUrl : string) :
  Normalizer.extLinkLoop links pdfUrl
  = match List.find (fun href => Js.endsWith ".pdf" (Js.toLowerCase href))
            (omap (Dom.getAttribute "xlink:href") links) with
    | Some href => href
    | None => pdfUrl
    end.
Proof.
  induction links as [|link rest IH]; [reflexivity |].
  cbn [Normalizer.extLinkLoop omap list_omap].
  destruct (Dom.getAttribute "xlink:href" link) as [href|]; [| exact IH].
  cbn [List.find].
  destruct (Js.endsWith ".pdf" (Js.toLowerCase href)) eqn:E.
  - now rewrite (endsPdf_nonEmpty _ E).
  - rewrite andb_false_r. exact IH.
Qed.

Lemma find_endsPdf_nonEmpty (hrefs : list string) (href : string) :
  List.find (fun h => Js.endsWith ".pdf" (Js.toLowerCase h)) hrefs = Some href ->
  Normalizer.nonEmpty href = true.
Proof.
  intros H. apply List.find_some in H as [_ H]. now apply endsPdf_nonEmpty.
Qed.

Lemma pmcPdfUrl_chain (article : Dom.element) (id : string) :
  Normalizer.pmcPdfUrl article id
  = Spec.pdfChain (Spec.selfUriPdfHref article) article (Normalizer.pdfTemplate id).
Proof.
  unfold Normalizer.pmcPdfUrl, Spec.pdfChain, Spec.selfUriPdfHref, Spec.pdfSelfUri,
    Spec.extLinkPdfHref.
  rewrite extLinkLoop_find.
  set (found := List.find _ _).
  assert (Hfound : forall href, found = Some href -> Normalizer.nonEmpty href = true)
    by (intros href; apply find_endsPdf_nonEmpty).
  assert (Htail :
    (let pdfUrl := if Normalizer.nonEmpty "" then ""
                   else match found with Some href => href | None => "" end in
     if Normalizer.nonEmpty pdfUrl then pdfUrl else Normalizer.pdfTemplate id)
    = match found with Some href => href | None => Normalizer.pdfTemplate id end).
  { cbn. destruct found as [href|]; [| reflexivity]. now rewrite (Hfound href). }
  destruct (Dom.querySelector (Dom.tag "self-uri") article) as [selfUri|]; [| exact Htail].
  destruct (Dom.getAttribute "content-type" selfUri) as [contentType|];
    cbn [Normalizer.attrTruthy Js.orEmpty andb]; [| exact Htail].
  destruct (Dom.getAttribute "xlink:href" selfUri) as [href|];
    cbn [Normalizer.attrTruthy Js.orEmpty andb].
  - destruct (Js.includes "pdf" (Js.toLowerCase contentType)) eqn:Hinc.
    + assert (Hct : Normalizer.nonEmpty contentType = true).
      { destruct contentType; [discriminate | reflexivity]. }
      rewrite Hct. cbn [andb].
      destruct (Normalizer.nonEmpty href) eqn:Hh; [| exact Htail].
      destruct (Js.startsWith "http" href) eqn:Hs.
      * rewrite Hh. cbv iota. now rewrite Hh.
      * reflexivity.
    + rewrite andb_false_r. cbn [andb]. exact Htail.
  - rewrite andb_false_r. exact Htail.
Qed.

(** C3, as the code has it: the [pmcid] of a PMC-schema record is the text
    of the article's [article-id[pub-id-type='pmc']] without one leading PMC
    prefix, and its [pdfUrl] is (1) the href of the FIRST [self-uri] element
    of the article when that element has a [content-type] containing "pdf"
    (in any casing) and a non-empty [xlink:href], used as it is when it
    starts with "http" and replaced by the template URL
    https://www.ncbi.nlm.nih.gov/pmc/articles/PMC{pmcid}/pdf/ otherwise;
    else (2) the first [ext-link] href ending in ".pdf" (in any casing);
    else (3) the template URL.  In particular an article whose
    [article-id[pub-id-type='pmc']] is 9999, with no PDF link, has [pmcid]
    9999 and the [pdfUrl] https://www.ncbi.nlm.nih.gov/pmc/articles/PMC9999/pdf/,
    which ends in PMC9999/pdf/. *)
Theorem pmc_pdfUrl_fallback_chain (article : Dom.element) (raw : string) :
  Normalizer.textOr Normalizer.selPmcId article = raw ->
  Normalizer.pmcid (Normalizer.normalizePmc article)
  = (if Spec.hasPmcPrefix raw then Js.drop 3 raw else raw)
  /\ Normalizer.pdfUrl (Normalizer.normalizePmc article)
     = Spec.pdfChain (Spec.selfUriPdfHref article) article
         ("https://www.ncbi.nlm.nih.gov/pmc/articles/PMC"
          +:+ (if Spec.hasPmcPrefix raw then Js.drop 3 raw else raw) +:+ "/pdf/")
  /\ (raw = "9999" ->
      Spec.selfUriPdfHref article = None ->
      Spec.extLinkPdfHref article = None ->
      Normalizer.pmcid (Normalizer.normalizePmc article) = "9999"
      /\ Normalizer.pdfUrl (Normalizer.normalizePmc article)
         = "https://www.ncbi.nlm.nih.gov/pmc/articles/PMC9999/pdf/"
      /\ Js.endsWith "PMC9999/pdf/" (Normalizer.pdfUrl (Normalizer.normalizePmc article))
         = true).
Proof.
  intros Hraw.
  cbn [Normalizer.normalizePmc Normalizer.pdfUrl Normalizer.pmcid].
  rewrite pmcPdfUrl_chain, Hraw, cleanPmcIdStr_eq.
  split; [reflexivity |]. split; [reflexivity |].
  intros -> Hself Hext. unfold Spec.pdfChain. rewrite Hself, Hext.
  repeat split.
Qed.

Lemma pmc_pdfUrl_fallback_chain_witness :
  Normalizer.pmcid (Normalizer.normalizePmc Samples.pmc_9999) = "9999"
  /\ Normalizer.pdfUrl (Normalizer.normalizePmc Samples.pmc_9999)
     = "https://www.ncbi.nlm.nih.gov/pmc/articles/PMC9999/pdf/"
  /\ Js.endsWith "PMC9999/pdf/"
       (Normalizer.pdfUrl (Normalizer.normalizePmc Samples.pmc_9999)) = true.
Proof.
  apply (proj2 (proj2 (pmc_pdfUrl_fallback_chain Samples.pmc_9999 "9999" eq_refl)));
    reflexivity.
Defined.

(** C3, counterexample to the claim as stated: the second [self-uri]
    element of this article has the [content-type] "pdf" and an absolute
    [xlink:href], so a chain that takes a PDF [self-uri] wherever it stands
    gives that href; the code looks at the first [self-uri] only, which has
    no [content-type], and there being no [ext-link] it gives the template
    URL. *)
Lemma pmc_pdfUrl_skips_later_self_uri :
  Spec.anySelfUriPdfHref Samples.pmc_two_self_uri = Some "https://example.org/a.pdf"
  /\ Spec.pdfChain (Spec.anySelfUriPdfHref Samples.pmc_two_self_uri)
       Samples.pmc_two_self_uri "https://www.ncbi.nlm.nih.gov/pmc/articles/PMC42/pdf/"
     = "https://example.org/a.pdf"
  /\ Spec.selfUriPdfHref Samples.pmc_two_self_uri = None
  /\ Normalizer.pdfUrl (Normalizer.normalizePmc Samples.pmc_two_self_uri)
     = "https://www.ncbi.nlm.nih.gov/pmc/articles/PMC42/pdf/"
  /\ Normalizer.pdfUrl (Normalizer.normalizePmc Samples.pmc_two_self_uri)
     <> Spec.pdfChain (Spec.anySelfUriPdfHref Samples.pmc_two_self_uri)
          Samples.pmc_two_self_uri "https://www.ncbi.nlm.nih.gov/pmc/articles/PMC42/pdf/".
Proof. repeat split. discriminate. Qed.

(** ** The enrichment pass *)

Section EnrichmentFacts.
Import Dom Normalizer Enrichment.

Implicit Types (papers : list paper) (article : element).

Lemma list_find_firstWith papers k i r :
  list_find (fun p => pmcid p = k) papers = Some (i, r)
  <-> papers !! i = Some r /\ Spec.firstWith k papers i.
Proof.
  rewrite list_find_Some. unfold Spec.firstWith. split.
  - intros (Hi & Hk & Hmin). split; [exact Hi |]. split.
    + rewrite list_lookup_fmap, Hi. simpl. now rewrite Hk.
    + intros j Hj. rewrite list_lookup_fmap.
      destruct (papers !! j) as [y|] eqn:Ej; [| discriminate].
      simpl. intros [= Hy]. exact (Hmin j y Ej Hj Hy).
  - intros (Hi & Hk & Hmin). rewrite list_lookup_fmap, Hi in Hk.
    simpl in Hk. split; [exact Hi |]. split; [congruence |].
    intros j y Ej Hj Hy. apply (Hmin j Hj).
    rewrite list_lookup_fmap, Ej. simpl. now rewrite Hy.
Qed.

(** One turn of the loop, by cases on the join. *)
Lemma enrichOne_first papers article i r :
  Spec.firstWith (Spec.articleId article) papers i ->
  papers !! i = Some r ->
  enrichOne papers article
  = <[i := overlay r article (Spec.articleId article)]> papers.
Proof.
  intros Hfirst Hi. unfold enrichOne. fold (Spec.articleId article).
  rewrite (proj2 (list_find_firstWith papers _ i r)); [reflexivity | auto].
Qed.


(** The overlay leaves [pmcid] and [uid] as they were. *)
Lemma enrichOne_keys papers article :
  (fun p => (pmcid p, uid p)) <$> enrichOne papers article
  = (fun p => (pmcid p, uid p)) <$> papers.
Proof.
  unfold enrichOne. destruct (list_find _ papers) as [[i r]|] eqn:E; [| reflexivity].
  apply list_find_Some in E as (Hi & _ & _).
  rewrite list_fmap_insert. apply list_insert_id.
  rewrite list_lookup_fmap, Hi. reflexivity.
Qed.

Lemma enrich_keys papers (pmcArticles : list element) :
  (fun p => (pmcid p, uid p)) <$> enrich papers pmcArticles
  = (fun p => (pmcid p, uid p)) <$> papers.
Proof.
  unfold enrich. revert papers.
  induction pmcArticles as [|a rest IH]; intros papers; [reflexivity |].
  cbn [fold_left]. rewrite IH. apply enrichOne_keys.
Qed.

Lemma keys_pmcids papers papers' :
  (fun p => (pmcid p, uid p)) <$> papers' = (fun p => (pmcid p, uid p)) <$> papers ->
  pmcid <$> papers' = pmcid <$> papers.
Proof.
  intros H. apply (f_equal (fmap fst)) in H.
  rewrite <- !list_fmap_compose in H. exact H.
Qed.

Lemma keys_lookup papers papers' i r :
  (fun p => (pmcid p, uid p)) <$> papers' = (fun p => (pmcid p, uid p)) <$> papers ->
  papers !! i = Some r ->
  exists r', papers' !! i = Some r' /\ pmcid r' = pmcid r /\ uid r' = uid r.
Proof.
  intros H Hi. apply (f_equal (fun l => l !! i)) in H.
  rewrite !list_lookup_fmap, Hi in H.
  destruct (papers' !! i) as [r'|]; [| discriminate].
  simpl in H. injection H as H1 H2. eauto.
Qed.

Lemma enrich_length papers (pmcArticles : list element) :
  length (enrich papers pmcArticles) = length papers.
Proof.
  rewrite <- (length_fmap (fun p => (pmcid p, uid p))), enrich_keys.
  apply length_fmap.
Qed.

(** An article with another id leaves the record alone. *)
Lemma enrichOne_other papers article i r :
  papers !! i = Some r ->
  pmcid r <> Spec.articleId article ->
  enrichOne papers article !! i = Some r.
Proof.
  intros Hi Hne. unfold enrichOne. fold (Spec.articleId article).
  destruct (list_find _ papers) as [[k old]|] eqn:E; [| exact Hi].
  apply list_find_Some in E as (Hk & Hid & _).
  rewrite list_lookup_insert_ne; [exact Hi |].
  intros ->. congruence.
Qed.

Lemma enrich_other papers (pmcArticles : list element) i r :
  papers !! i = Some r ->
  Forall (fun later => Spec.articleId later <> pmcid r) pmcArticles ->
  enrich papers pmcArticles !! i = Some r.
Proof.
  unfold enrich. revert papers.
  induction pmcArticles as [|a rest IH]; intros papers Hi Hall; [exact Hi |].
  cbn [fold_left]. inversion Hall as [|? ? Ha Hrest]; subst.
  apply IH; [| exact Hrest]. apply enrichOne_other; [exact Hi | congruence].
Qed.



End EnrichmentFacts.



Section OverlayFacts.
Import Dom Normalizer Enrichment.

(** The overlaid record against the PMC-schema record of the same
    article. *)
Lemma overlay_fields (old : paper) (article : element) :
  let enriched := overlay old article (Spec.articleId article) in
  let pmc := normalizePmc article in
  pmcid enriched = pmcid old /\ uid enriched = uid old
  /\ authors enriched = authors pmc
  /\ authorsArray enriched = authorsArray pmc
  /\ pdfUrl enriched = pdfUrl pmc
  /\ (textOr (tag "article-title") article <> "" -> title enriched = title pmc)
  /\ (querySelectorAll selAbstractP article <> [] -> articletitle enriched = articletitle pmc)
  /\ (textOr (tag "journal-title") article <> "" -> source enriched = source pmc)
  /\ (Spec.pubYear article <> "" -> pubdate enriched = pubdate pmc).
Proof.
  cbn zeta. cbn [overlay normalizePmc pmcid uid authors authorsArray pdfUrl title
                 articletitle source pubdate].
  repeat split.
  - intros H. now rewrite orElse_nonEmpty.
  - intros H. unfold pmcAbstract.
    destruct (querySelectorAll selAbstractP article); [congruence | reflexivity].
  - intros H. now rewrite orElse_nonEmpty.
  - unfold Spec.pubYear, pmcPubDate.
    destruct (querySelector (tag "pub-date") article) as [pd|]; [| congruence].
    intros H. unfold composeDate. rewrite (nonEmpty_of_ne _ H).
    cbn [andb]. destruct (nonEmpty (trimmedTextOr (tag "month") pd)); reflexivity.
Qed.

End OverlayFacts.

(** C1, as the code has it: take the first record with the sanitised id of
    a returned PMC article, and the last returned article with that id.
    After the enrichment pass the record keeps its [pmcid] and [uid]; its
    [authors], [authorsArray] and [pdfUrl] are those of the PMC-schema
    extraction of the article; and [title], [articletitle], [source] and
    [pubdate] are those of the PMC-schema extraction whenever the article
    supplies them: a non-empty [article-title] text, at least one
    [abstract p] paragraph, a non-empty [journal-title] text, a [pub-date]
    with a non-empty year. *)
Theorem enrichment_overlays_supplied_fields
    (papers : list Normalizer.paper) (before after : list Dom.element)
    (article : Dom.element) (i : nat) :
  Spec.firstWith (Spec.articleId article) papers i ->
  Forall (fun later => Spec.articleId later <> Spec.articleId article) after ->
  exists first enriched,
    papers !! i = Some first
    /\ Enrichment.enrich papers (before ++ article :: after) !! i = Some enriched
    /\ Normalizer.pmcid enriched = Normalizer.pmcid first
    /\ Normalizer.uid enriched = Normalizer.uid first
    /\ Normalizer.authors enriched = Normalizer.authors (Normalizer.normalizePmc article)
    /\ Normalizer.authorsArray enriched
       = Normalizer.authorsArray (Normalizer.normalizePmc article)
    /\ Normalizer.pdfUrl enriched = Normalizer.pdfUrl (Normalizer.normalizePmc article)
    /\ (Normalizer.textOr (Dom.tag "article-title") article <> "" ->
        Normalizer.title enriched = Normalizer.title (Normalizer.normalizePmc article))
    /\ (Dom.querySelectorAll Normalizer.selAbstractP article <> [] ->
        Normalizer.articletitle enriched
        = Normalizer.articletitle (Normalizer.normalizePmc article))
    /\ (Normalizer.textOr (Dom.tag "journal-title") article <> "" ->
        Normalizer.source enriched = Normalizer.source (Normalizer.normalizePmc article))
    /\ (Spec.pubYear article <> "" ->
        Normalizer.pubdate enriched = Normalizer.pubdate (Normalizer.normalizePmc article)).
Proof.
  intros Hfirst Hafter.
  assert (Hi : exists first, papers !! i = Some first
                             /\ Normalizer.pmcid first = Spec.articleId article).
  { destruct Hfirst as [Hk _]. rewrite list_lookup_fmap in Hk.
    destruct (papers !! i) as [first|]; [| discriminate].
    simpl in Hk. exists first. split; congruence. }
  destruct Hi as (first & Hi & Hid).
  set (mid := Enrichment.enrich papers before).
  assert (Hkeys := enrich_keys papers before). fold mid in Hkeys.
  destruct (keys_lookup papers mid i first Hkeys Hi) as (old & Hold & Hoid & Houid).
  assert (Hfirst' : Spec.firstWith (Spec.articleId article) mid i).
  { unfold Spec.firstWith in *. now rewrite (keys_pmcids _ _ Hkeys). }
  exists first, (Enrichment.overlay old article (Spec.articleId article)).
  destruct (overlay_fields old article) as (F1 & F2 & F3 & F4 & F5 & F6 & F7 & F8 & F9).
  split; [exact Hi |]. split.
  - unfold Enrichment.enrich. rewrite fold_left_app. cbn [fold_left].
    fold (Enrichment.enrich papers before). fold mid.
    rewrite (enrichOne_first mid article i old Hfirst' Hold).
    apply enrich_other.
    + apply list_lookup_insert_eq. now apply lookup_lt_Some with old.
    + rewrite F1, Hoid, Hid. exact Hafter.
  - repeat split; try assumption; congruence.
Qed.

Lemma enrichment_overlays_supplied_fields_witness :
  exists first enriched,
    Samples.pubmed_papers !! 0%nat = Some first
    /\ Enrichment.enrich Samples.pubmed_papers
         ([] ++ Samples.pmc_article_full :: []) !! 0%nat = Some enriched
    /\ Normalizer.pmcid enriched = Normalizer.pmcid first
    /\ Normalizer.uid enriched = Normalizer.uid first
    /\ Normalizer.authors enriched
       = Normalizer.authors (Normalizer.normalizePmc Samples.pmc_article_full)
    /\ Normalizer.authorsArray enriched
       = Normalizer.authorsArray (Normalizer.normalizePmc Samples.pmc_article_full)
    /\ Normalizer.pdfUrl enriched
       = Normalizer.pdfUrl (Normalizer.normalizePmc Samples.pmc_article_full)
    /\ (Normalizer.textOr (Dom.tag "article-title") Samples.pmc_article_full <> "" ->
        Normalizer.title enriched
        = Normalizer.title (Normalizer.normalizePmc Samples.pmc_article_full))
    /\ (Dom.querySelectorAll Normalizer.selAbstractP Samples.pmc_article_full <> [] ->
        Normalizer.articletitle enriched
        = Normalizer.articletitle (Normalizer.normalizePmc Samples.pmc_article_full))
    /\ (Normalizer.textOr (Dom.tag "journal-title") Samples.pmc_article_full <> "" ->
        Normalizer.source enriched
        = Normalizer.source (Normalizer.normalizePmc Samples.pmc_article_full))
    /\ (Spec.pubYear Samples.pmc_article_full <> "" ->
        Normalizer.pubdate enriched
        = Normalizer.pubdate (Normalizer.normalizePmc Samples.pmc_article_full)).
Proof.
  apply (enrichment_overlays_supplied_fields Samples.pubmed_papers [] []
           Samples.pmc_article_full 0%nat).
  - split; [reflexivity | intros j Hj; inversion Hj].
  - constructor.
Defined.

Example enrichment_full_article :
  Dom.docQuerySelectorAll (Dom.tag "article") Samples.pmc_doc_full
  = [Samples.pmc_article_full]
  /\ (fun p => (Normalizer.uid p, Normalizer.title p, Normalizer.articletitle p,
                Normalizer.source p, Normalizer.pubdate p, Normalizer.authors p))
     <$> Enrichment.enrich Samples.pubmed_papers [Samples.pmc_article_full]
     = [("111", "PMC title", "PMC abstract", "PMC journal", "2020-12-01", "J. Doe")].
Proof. split; reflexivity. Qed.

(** C1, counterexample to the claim as stated: the batch has one record,
    with [pmcid] 9999, and the PMC answer has the article 9999 without
    title, abstract, journal or date.  The final output keeps the PubMed
    [title], [articletitle], [source] and [pubdate], where the PMC-schema
    extraction of the article has the empty string, the no-abstract text,
    and two empty strings. *)
Lemma enrichment_keeps_pubmed_fields :
  exists article enriched,
    Dom.docQuerySelectorAll (Dom.tag "article") Samples.pmc_doc_bare = [article]
    /\ Normalizer.pmcid <$> Samples.pubmed_papers = ["9999"]
    /\ Normalizer.pmcid (Normalizer.normalizePmc article) = "9999"
    /\ fst (Http.run (Samples.xmlUpstream Samples.pubmed_doc Samples.pmc_doc_bare)
              (Papers.handler (Samples.papersRequest ["111"] "pubmed")) [])
       = inr (Http.json (Http.PapersBody [enriched] 1))
    /\ Normalizer.title enriched = "PubMed title"
    /\ Normalizer.title (Normalizer.normalizePmc article) = ""
    /\ Normalizer.articletitle enriched = "PubMed abstract"
    /\ Normalizer.articletitle (Normalizer.normalizePmc article) = "No abstract available."
    /\ Normalizer.source enriched = "PubMed journal"
    /\ Normalizer.source (Normalizer.normalizePmc article) = ""
    /\ Normalizer.pubdate enriched = "2021-03-07"
    /\ Normalizer.pubdate (Normalizer.normalizePmc article) = "".
Proof.
  do 2 eexists. split; [reflexivity |]. repeat split.
Qed.

(** ** Handler runs *)

Section RunFacts.
Import Http.

Lemma run_bind {A B : Type} (net : upstream) (p : prog A) (f : A -> prog B)
    (calls : list string) :
  run net (bind p f) calls
  = match run net p calls with
    | (inr a, calls') => run net (f a) calls'
    | (inl e, calls') => (inl e, calls')
    end.
Proof.
  revert calls. induction p as [a | e | url k IH]; intros calls; cbn; auto.
Qed.

Lemma run_tryCatch {A : Type} (net : upstream) (p : prog A) (h : js_error -> prog A)
    (calls : list string) :
  run net (tryCatch p h) calls
  = match run net p calls with
    | (inr a, calls') => (inr a, calls')
    | (inl e, calls') => run net (h e) calls'
    end.
Proof.
  revert calls. induction p as [a | e | url k IH]; intros calls; cbn; auto.
Qed.

(** A run only adds to the list of calls. *)
Lemma run_extends {A : Type} (net : upstream) (p : prog A) (calls : list string) :
  exists more, snd (run net p calls) = calls ++ more.
Proof.
  revert calls. induction p as [a | e | url k IH]; intros calls; cbn.
  - exists []. now rewrite app_nil_r.
  - exists []. now rewrite app_nil_r.
  - destruct (IH (net calls url) (calls ++ [url])) as [more Hmore].
    exists (url :: more). rewrite Hmore. now rewrite <- app_assoc.
Qed.

End RunFacts.

(** ** The search endpoint *)

(** C7: a search request (anything but the CORS preflight) whose [db] is not
    supported, whose [retstart] does not parse as a non-negative integer, or
    whose [retmax] does not parse as a positive integer at most 10000, gets a
    4xx response, and no upstream call is made. *)
Theorem search_rejects_invalid_parameters (net : Http.upstream) (req : Http.http_request) :
  Http.method req <> "OPTIONS" ->
  Http.supported (Search.db req) && Spec.startOk req && Spec.maxOk req = false ->
  exists resp,
    Http.run net (Search.handler req) [] = (inr resp, [])
    /\ (400 <= Http.status resp < 500)%Z.
Proof.
  intros Hmethod Hbad. unfold Search.handler.
  destruct (String.eqb_spec (Http.method req) "OPTIONS") as [|_]; [contradiction |].
  destruct (Http.method req =? "GET")%string; cbn [negb].
  2: { eexists. split; [reflexivity |]. cbn. lia. }
  rewrite run_tryCatch. unfold Search.handlerBody.
  destruct (Val.truthy (Search.term req)); cbn [negb].
  2: { eexists. split; [reflexivity |]. cbn. lia. }
  destruct (Http.supported (Search.db req)); cbn [negb].
  2: { eexists. split; [reflexivity |]. cbn. lia. }
  unfold Spec.startOk, Spec.maxOk in Hbad. cbn [andb] in Hbad.
  destruct (Val.parseInt (Search.retstart req)) as [start|].
  2: { eexists. split; [reflexivity |]. cbn. lia. }
  destruct (Z.ltb_spec start 0).
  { eexists. split; [reflexivity |]. cbn. lia. }
  destruct (Val.parseInt (Search.retmax req)) as [max|].
  2: { eexists. split; [reflexivity |]. cbn. lia. }
  destruct ((max <=? 0)%Z || (10000 <? max)%Z) eqn:Hmax.
  { eexists. split; [reflexivity |]. cbn. lia. }
  exfalso. apply orb_false_elim in Hmax as [H1 H2].
  rewrite andb_false_iff in Hbad. lia.
Qed.

Lemma search_rejects_invalid_parameters_witness :
  exists resp,
    Http.run (Samples.esearchUpstream "157" ["123"; "456"])
      (Search.handler (Samples.searchRequest "cancer" "pmc" "0" "0")) []
    = (inr resp, [])
    /\ (400 <= Http.status resp < 500)%Z.
Proof.
  apply (search_rejects_invalid_parameters
           (Samples.esearchUpstream "157" ["123"; "456"])
           (Samples.searchRequest "cancer" "pmc" "0" "0")).
  - discriminate.
  - reflexivity.
Defined.

(** The count of a first answer that carries a session token is the
    integer its [count] field parses to. *)
Lemma countOf_field (esearchResult webenv c : jsval) (count : Z) :
  Val.getProp esearchResult "webenv" = Some webenv -> Val.truthy webenv = true ->
  Val.getProp esearchResult "count" = Some c -> Val.parseInt c = Some count ->
  Search.countOf esearchResult = count.
Proof.
  intros Hwebenv Hwt Hc Hcount. unfold Search.countOf. rewrite Hc, Hcount.
  destruct esearchResult; try reflexivity; cbn in Hwebenv; try discriminate;
    injection Hwebenv as <-; discriminate.
Qed.

(** C6: when the request passes the validation, the first upstream answer
    is a 200 without an embedded error that carries both session tokens,
    its [count] field parses to the integer [count], and the parsed
    [retstart] is at or past [count], the endpoint answers 200 with no ids,
    total [count], [retstart] and [retmax], after that one upstream call.
    Both numbers are in the range JavaScript numbers hold exactly. *)
Theorem search_short_circuits_past_the_count
    (net : Http.upstream) (req : Http.http_request) (start max count : Z)
    (data : Http.payload) (esearchResult webenv querykey c : jsval) :
  Http.method req = "GET" ->
  Val.truthy (Search.term req) = true ->
  Http.supported (Search.db req) = true ->
  Val.parseInt (Search.retstart req) = Some start ->
  (0 <= start <= 9007199254740991)%Z ->
  Val.parseInt (Search.retmax req) = Some max -> (0 < max <= 10000)%Z ->
  net [] (Search.searchUrl req) = Http.Fulfilled 200 data ->
  Val.getProp (Http.as_json data) "esearchresult" = Some esearchResult ->
  Val.truthy (Search.embeddedError esearchResult) = false ->
  Val.getProp esearchResult "webenv" = Some webenv -> Val.truthy webenv = true ->
  Val.getProp esearchResult "querykey" = Some querykey -> Val.truthy querykey = true ->
  Val.getProp esearchResult "count" = Some c ->
  Val.parseInt c = Some count ->
  (-9007199254740991 <= count <= start)%Z ->
  Http.run net (Search.handler req) []
  = (inr (Http.mkResponse 200 (Http.SearchBody (JArr []) count start max)),
     [Search.searchUrl req]).
Proof.
  intros Hmethod Hterm Hdb Hstart Hstart0 Hmax Hmax0 Hnet Hres Herr
         Hwebenv Hwt Hquerykey Hqt Hc Hcount Hle.
  unfold Search.handler. rewrite Hmethod. cbn [String.eqb Ascii.eqb Bool.eqb negb].
  rewrite run_tryCatch. unfold Search.handlerBody.
  rewrite Hterm, Hdb, Hstart, Hmax. cbn [negb].
  destruct (Z.ltb_spec start 0); [lia |].
  destruct (Z.leb_spec max 0); [lia |].
  destruct (Z.ltb_spec 10000 max); [lia |]. cbn [orb].
  unfold Search.search, Http.axiosGet, Http.readProp.
  cbn [Http.bind Http.run]. rewrite Hnet. cbn [Http.bind Http.run Z.eqb Pos.eqb negb].
  rewrite Hres. cbn [Http.bind Http.run]. rewrite Herr.
  rewrite Hwebenv. cbn [Http.bind Http.run]. rewrite Hquerykey. cbn [Http.bind Http.run].
  rewrite Hwt, Hqt. cbn [negb orb].
  rewrite (countOf_field esearchResult webenv c count Hwebenv Hwt Hc Hcount).
  destruct (Z.leb_spec count start); [| lia].
  reflexivity.
Qed.

Lemma search_short_circuits_past_the_count_witness :
  Http.run (Samples.esearchUpstream "157" ["123"; "456"])
    (Search.handler (Samples.searchRequest "cancer" "pmc" "200" "2")) []
  = (inr (Http.mkResponse 200 (Http.SearchBody (JArr []) 157 200 2)),
     ["https://eutils.ncbi.nlm.nih.gov/entrez/eutils/esearch.fcgi?db=pmc&term=cancer&usehistory=y&retmode=json"]).
Proof.
  apply (search_short_circuits_past_the_count
           (Samples.esearchUpstream "157" ["123"; "456"])
           (Samples.searchRequest "cancer" "pmc" "200" "2") 200 2 157
           (Samples.esearchPayload "157" ["123"; "456"])
           (Samples.esearchResult "157" ["123"; "456"])
           (JStr "MCID_1") (JStr "1") (JStr "157"));
    first [ reflexivity | lia ].
Defined.

Example search_page :
  Http.run (Samples.esearchUpstream "157" ["123"; "456"])
    (Search.handler (Samples.searchRequest "cancer" "pmc" "0" "2")) []
  = (inr (Http.json (Http.SearchBody (JArr [JStr "123"; JStr "456"]) 157 0 2)),
     ["https://eutils.ncbi.nlm.nih.gov/entrez/eutils/esearch.fcgi?db=pmc&term=cancer&usehistory=y&retmode=json";
      "https://eutils.ncbi.nlm.nih.gov/entrez/eutils/esearch.fcgi?db=pmc&query_key=1&WebEnv=MCID_1&retstart=0&retmax=2&retmode=json"]).
Proof. reflexivity. Qed.

(** ** Rejected upstream calls *)

Section RejectionFacts.
Import Http.

Lemma tr_bind {A B : Type} (p : prog A) (f : A -> prog B) :
  Spec.throwsRejections p ->
  (forall a, Spec.throwsRejections (f a)) ->
  Spec.throwsRejections (bind p f).
Proof.
  intros Hp Hf. induction Hp as [a | e | url k Hrej _ IH]; cbn [bind].
  - apply Hf.
  - constructor.
  - constructor.
    + intros e. now rewrite Hrej.
    + intros st data. apply IH.
Qed.

Lemma tr_axiosGet (url : string) : Spec.throwsRejections (axiosGet url).
Proof. constructor; [reflexivity | intros; constructor]. Qed.

(** In a run of such a program, a rejected GET is the last one, and its
    rejection is what the run ends with. *)
Lemma run_rejected {A : Type} (net : upstream) (p : prog A) :
  Spec.throwsRejections p ->
  forall calls0 res calls prior url rest e,
    run net p calls0 = (res, calls) ->
    calls = prior ++ url :: rest ->
    (length calls0 <= length prior)%nat ->
    net prior url = Rejected e ->
    rest = [] /\ res = inl e.
Proof.
  intros Hp. induction Hp as [a | e0 | url0 k Hrej _ IH];
    intros calls0 res calls prior url rest e Hrun Hcalls Hlen Hnet.
  - cbn in Hrun. injection Hrun as _ <-. subst calls0.
    rewrite length_app in Hlen. cbn in Hlen. lia.
  - cbn in Hrun. injection Hrun as _ <-. subst calls0.
    rewrite length_app in Hlen. cbn in Hlen. lia.
  - cbn [run] in Hrun.
    destruct (run_extends net (k (net calls0 url0)) (calls0 ++ [url0])) as [more Hmore].
    rewrite Hrun in Hmore. cbn [snd] in Hmore. rewrite <- app_assoc in Hmore.
    cbn [app] in Hmore.
    destruct (decide (length calls0 = length prior)) as [Heq | Hne].
    + assert (Hsplit : prior = calls0 /\ url :: rest = url0 :: more).
      { apply app_inj_1; [auto | congruence]. }
      destruct Hsplit as [-> [= -> ->]].
      rewrite Hnet, Hrej in Hrun. cbn in Hrun. injection Hrun as <- Hc.
      split; [| reflexivity].
      rewrite <- Hc in Hcalls. apply app_inv_head in Hcalls. now injection Hcalls.
    + destruct (net calls0 url0) as [st data | e0] eqn:Hnet0.
      * apply (IH st data (calls0 ++ [url0]) res calls prior url rest e);
          auto. rewrite length_app. cbn. lia.
      * rewrite Hrej in Hrun. cbn in Hrun. injection Hrun as _ Hc.
        rewrite <- Hc in Hcalls. apply (f_equal length) in Hcalls.
        rewrite !length_app in Hcalls. cbn in Hcalls. lia.
Qed.

(** The same under a [catch] that answers every error. *)
Lemma run_rejected_caught (net : upstream) (p : prog http_response)
    (h : js_error -> prog http_response) resp calls prior url rest e :
  Spec.throwsRejections p ->
  (forall error, exists r, h error = Ret r) ->
  run net (tryCatch p h) [] = (inr resp, calls) ->
  calls = prior ++ url :: rest ->
  net prior url = Rejected e ->
  rest = [] /\ h e = Ret resp.
Proof.
  intros Hp Hh Hrun Hcalls Hnet. rewrite run_tryCatch in Hrun.
  destruct (run net p []) as [res calls'] eqn:Hp_run.
  assert (Hc : calls' = calls).
  { destruct res as [e0 | r0]; [| now injection Hrun].
    destruct (Hh e0) as [r Hr]. rewrite Hr in Hrun. cbn in Hrun. now injection Hrun. }
  subst calls'.
  destruct (run_rejected net p Hp [] res calls prior url rest e Hp_run Hcalls
              ltac:(cbn; lia) Hnet) as [Hrest ->].
  split; [exact Hrest |].
  destruct (Hh e) as [r Hr]. rewrite Hr in Hrun |- *. cbn in Hrun.
  injection Hrun as ->. reflexivity.
Qed.

Local Ltac rejections :=
  repeat match goal with
    | |- Spec.throwsRejections (bind _ _) => apply tr_bind; [| intros]
    | |- Spec.throwsRejections (axiosGet _) => apply tr_axiosGet
    | |- Spec.throwsRejections (Ret _) => constructor
    | |- Spec.throwsRejections (Throw _) => constructor
    | |- Spec.throwsRejections (readProp _ _) => unfold readProp
    | |- Spec.throwsRejections (parseXml _) => unfold parseXml
    | |- Spec.throwsRejections (if ?c then _ else _) => destruct c
    | |- Spec.throwsRejections (match ?x with _ => _ end) => destruct x
    end.

Lemma tr_search_body (req : http_request) :
  Spec.throwsRejections (Search.handlerBody req).
Proof. unfold Search.handlerBody, Search.search. rejections. Qed.

Lemma tr_filterIds (ids : list jsval) : Spec.throwsRejections (Papers.filterIds ids).
Proof.
  induction ids as [|id rest IH]; cbn [Papers.filterIds]; [constructor |].
  unfold Papers.keepId. rejections; exact IH.
Qed.

Lemma tr_papers_body (req : http_request) :
  Spec.throwsRejections (Papers.handlerBody req).
Proof.
  unfold Papers.handlerBody, Papers.destructure, Papers.enrichment.
  repeat match goal with
    | |- Spec.throwsRejections (Papers.filterIds _) => apply tr_filterIds
    | _ => progress rejections
    end.
Qed.

Lemma tr_paper_body (id : jsval) : Spec.throwsRejections (PaperById.handlerBody id).
Proof. unfold PaperById.handlerBody. rejections. Qed.

Lemma search_catch_answers (error : js_error) :
  exists r, Search.handlerCatch error = Ret r.
Proof.
  unfold Search.handlerCatch.
  destruct (response error) as [[st data]|]; [eauto |].
  destruct (request error); eauto.
Qed.

Lemma no_calls_not_rejected {A : Type} (a : A) (resp : A) (net : upstream)
    calls (prior rest : list string) url :
  run net (Ret a) [] = (inr resp, calls) -> calls = prior ++ url :: rest -> False.
Proof.
  cbn. intros [= _ <-] H. now destruct prior.
Qed.

End RejectionFacts.



(** C8, as the code has it: when an upstream call is rejected, the run ends
    there.  The search endpoint answers with the upstream's status when the
    rejection carries a response and with 500 otherwise, and echoes the
    response body, or else the error's message, as [details].  The
    batch-papers and single-paper endpoints answer 500 with the error's
    message as [details], whatever the rejection carries. *)
Theorem transport_errors_surface
    (net : Http.upstream) (req : Http.http_request) (resp : Http.http_response)
    (calls prior rest : list string) (url : string) (e : Http.js_error) :
  calls = prior ++ url :: rest ->
  net prior url = Http.Rejected e ->
  (Http.run net (Search.handler req) [] = (inr resp, calls) ->
   rest = []
   /\ Http.status resp = match Http.response e with Some (st, _) => st | None => 500%Z end
   /\ exists error,
        Http.body resp
        = Http.ErrorBody error
            (Some (match Http.response e with
                   | Some (_, data) => Http.as_json data
                   | None => JStr (Http.message e)
                   end)))
  /\ (Http.run net (Papers.handler req) [] = (inr resp, calls) ->
      rest = []
      /\ resp = Http.failWith 500 "Failed to fetch papers" (JStr (Http.message e)))
  /\ (Http.run net (PaperById.handler req) [] = (inr resp, calls) ->
      rest = []
      /\ resp = Http.failWith 500 "Failed to fetch paper details" (JStr (Http.message e))).
Proof.
  intros Hcalls Hnet. split; [| split].
  - unfold Search.handler.
    destruct (Http.method req =? "OPTIONS")%string;
      [intros H; destruct (no_calls_not_rejected _ _ _ _ _ _ _ H Hcalls) |].
    destruct (negb (Http.method req =? "GET")%string);
      [intros H; destruct (no_calls_not_rejected _ _ _ _ _ _ _ H Hcalls) |].
    intros Hrun.
    destruct (run_rejected_caught net _ _ resp calls prior url rest e
                (tr_search_body req) search_catch_answers Hrun Hcalls Hnet)
      as [Hrest Hresp].
    split; [exact Hrest |]. unfold Search.handlerCatch in Hresp.
    destruct (Http.response e) as [[st data]|].
    + injection Hresp as <-. cbn. eauto.
    + destruct (Http.request e); injection Hresp as <-; cbn; eauto.
  - unfold Papers.handler.
    destruct (Http.method req =? "OPTIONS")%string;
      [intros H; destruct (no_calls_not_rejected _ _ _ _ _ _ _ H Hcalls) |].
    destruct (negb (Http.method req =? "POST")%string);
      [intros H; destruct (no_calls_not_rejected _ _ _ _ _ _ _ H Hcalls) |].
    intros Hrun.
    destruct (run_rejected_caught net _ _ resp calls prior url rest e
                (tr_papers_body req) ltac:(intros; eexists; reflexivity)
                Hrun Hcalls Hnet) as [Hrest Hresp].
    split; [exact Hrest |]. now injection Hresp.
  - unfold PaperById.handler.
    destruct (Http.method req =? "OPTIONS")%string;
      [intros H; destruct (no_calls_not_rejected _ _ _ _ _ _ _ H Hcalls) |].
    destruct (negb (Http.method req =? "GET")%string);
      [intros H; destruct (no_calls_not_rejected _ _ _ _ _ _ _ H Hcalls) |].
    destruct (negb (Val.truthy (Http.queryField req "id")));
      [intros H; destruct (no_calls_not_rejected _ _ _ _ _ _ _ H Hcalls) |].
    intros Hrun.
    destruct (run_rejected_caught net _ _ resp calls prior url rest e
                (tr_paper_body _) ltac:(intros; eexists; reflexivity)
                Hrun Hcalls Hnet) as [Hrest Hresp].
    split; [exact Hrest |]. now injection Hresp.
Qed.

Lemma transport_errors_surface_witness :
  exists resp,
    Http.run Samples.notFoundUpstream
      (Search.handler (Samples.searchRequest "cancer" "pmc" "0" "2")) []
    = (inr resp, [Search.searchUrl (Samples.searchRequest "cancer" "pmc" "0" "2")])
    /\ Http.status resp = 404%Z
    /\ Http.body resp
       = Http.ErrorBody "ESearch/ESearch API Error: 404" (Some (JStr "Not Found")).
Proof.
  pose (req := Samples.searchRequest "cancer" "pmc" "0" "2").
  eexists. split; [reflexivity |].
  split; [| reflexivity].
  apply (proj1 (transport_errors_surface Samples.notFoundUpstream req _
             [Search.searchUrl req] [] [] (Search.searchUrl req) Samples.notFound
             eq_refl eq_refl)).
  reflexivity.
Defined.

(** C8, counterexample to the claim as stated: the upstream answers 404 to
    the efetch of the batch-papers and of the single-paper endpoint; both
    respond 500, not 404, and echo the error's message, not the upstream
    body. *)
Lemma papers_do_not_surface_upstream_status :
  Http.response Samples.notFound
  = Some (404%Z, Http.mkPayload (JStr "Not Found") (inl "not an XML document"))
  /\ Http.run Samples.notFoundUpstream
       (Papers.handler (Samples.papersRequest ["111"] "pmc")) []
     = (inr (Http.failWith 500 "Failed to fetch papers"
               (JStr "Request failed with status code 404")),
        ["https://eutils.ncbi.nlm.nih.gov/entrez/eutils/efetch.fcgi?db=pmc&id=111&retmode=xml"])
  /\ Http.run Samples.notFoundUpstream
       (PaperById.handler (Http.mkRequest "GET" [("id", JStr "111")] JUndefined)) []
     = (inr (Http.failWith 500 "Failed to fetch paper details"
               (JStr "Request failed with status code 404")),
        ["https://eutils.ncbi.nlm.nih.gov/entrez/eutils/efetch.fcgi?db=pubmed&id=111&retmode=xml"]).
Proof. repeat split. Qed.

(** ** The batch-papers endpoint *)

Section PapersRunFacts.
Import Http.

(** The id filter makes no upstream call. *)
Lemma run_filterIds (net : upstream) (ids : list jsval) (calls : list string) :
  exists r, run net (Papers.filterIds ids) calls = (r, calls).
Proof.
  induction ids as [|id rest [r IH]]; cbn [Papers.filterIds]; [cbn; eauto |].
  rewrite run_bind.
  destruct id; cbn [Papers.keepId run]; eauto;
    rewrite run_bind, IH; destruct r; cbn; eauto.
Qed.

Lemma normalize_length (db : string) (xmlDoc : node) (papers : list Normalizer.paper) :
  Papers.normalize db xmlDoc = Some papers ->
  length papers = length (Spec.articleElements db xmlDoc).
Proof.
  unfold Papers.normalize, Spec.articleElements.
  destruct (db =? "pubmed")%string.
  - intros [= <-]. apply length_map.
  - destruct (db =? "pmc")%string; [| discriminate].
    intros [= <-]. apply length_map.
Qed.

(** The enrichment block keeps the number of records. *)
Lemma run_enrichment_length (net : upstream) (db : string)
    (papers papers' : list Normalizer.paper) (calls calls' : list string) :
  run net (Papers.enrichment db papers) calls = (inr papers', calls') ->
  length papers' = length papers.
Proof.
  unfold Papers.enrichment.
  destruct (db =? "pubmed")%string; [| now intros [= <- _]].
  destruct (0 <? length _)%nat; [| now intros [= <- _]].
  unfold axiosGet, parseXml. cbn [bind run].
  destruct (net calls _) as [st data | e]; cbn [bind run]; [| discriminate].
  destruct (as_xml data) as [msg | root]; cbn [bind run]; [discriminate |].
  intros [= <- _]. apply enrich_length.
Qed.

End PapersRunFacts.

(** C9: in every successful response of the batch-papers endpoint, [total]
    is the length of [papers], which is the number of article elements of
    the document the first upstream call returned. *)
Theorem papers_total_is_number_of_records
    (net : Http.upstream) (req : Http.http_request) (resp : Http.http_response)
    (calls : list string) (papers : list Normalizer.paper) (total : nat) :
  Http.run net (Papers.handler req) [] = (inr resp, calls) ->
  Http.body resp = Http.PapersBody papers total ->
  total = length papers
  /\ exists url more st data xmlDoc db,
       calls = url :: more
       /\ net [] url = Http.Fulfilled st data
       /\ Http.as_xml data = inr xmlDoc
       /\ Val.getProp (Http.reqBody req) "db" = Some db
       /\ length papers
          = length (Spec.articleElements
                      (Val.ToString (Val.withDefault db (JStr "pmc"))) xmlDoc).
Proof.
  intros Hrun Hbody. unfold Papers.handler in Hrun.
  destruct (Http.method req =? "OPTIONS")%string.
  { cbn in Hrun. injection Hrun as <- _. discriminate Hbody. }
  destruct (negb (Http.method req =? "POST")%string).
  { cbn in Hrun. injection Hrun as <- _. discriminate Hbody. }
  rewrite run_tryCatch in Hrun.
  destruct (Http.run net (Papers.handlerBody req) []) as [[e | r] calls0] eqn:Hb.
  { cbn in Hrun. injection Hrun as <- _. discriminate Hbody. }
  injection Hrun as -> ->. clear - Hb Hbody.
  unfold Papers.handlerBody, Papers.destructure in Hb.
  destruct (Val.getProp (Http.reqBody req) "ids") as [ids|]; [| discriminate Hb].
  cbn [Http.bind] in Hb.
  destruct (Val.getProp (Http.reqBody req) "db") as [db|]; [| discriminate Hb].
  cbn [Http.bind] in Hb.
  assert (Hfail : forall st msg (c : list string),
             (@inr Http.js_error _ (Http.fail st msg), c) = (inr resp, calls) -> False).
  { intros st msg c [= <- _]. discriminate Hbody. }
  destruct ids as [| | | | | | [|id0 ids] |]; try (cbn in Hb; destruct (Hfail _ _ _ Hb)).
  destruct (negb (Http.supported (Val.withDefault db (JStr "pmc")))).
  { cbn in Hb; destruct (Hfail _ _ _ Hb). }
  rewrite run_bind in Hb.
  destruct (run_filterIds net (map Sanitizer.cleanPmcId (id0 :: ids)) []) as [r Hr].
  rewrite Hr in Hb. destruct r as [e | cleanedIds]; [discriminate Hb |].
  destruct (length cleanedIds =? 0)%nat.
  { cbn in Hb; destruct (Hfail _ _ _ Hb). }
  unfold Http.axiosGet, Http.parseXml in Hb. cbn [Http.bind Http.run] in Hb.
  set (url := Papers.efetchUrl _ _) in Hb.
  destruct (net [] url) as [st data | e] eqn:Hnet; cbn [Http.bind Http.run] in Hb;
    [| discriminate Hb].
  destruct (Http.as_xml data) as [msg | xmlDoc] eqn:Hxml; cbn [Http.bind Http.run] in Hb;
    [discriminate Hb |].
  destruct (Papers.normalize _ xmlDoc) as [firstPass|] eqn:Hnorm.
  2: { cbn in Hb; destruct (Hfail _ _ _ Hb). }
  rewrite run_bind in Hb.
  destruct (Http.run net (Papers.enrichment _ firstPass) ([] ++ [url]))
    as [[e | enriched] calls1] eqn:Henrich; [discriminate Hb |].
  cbn [Http.run] in Hb. injection Hb as <- <-.
  cbn in Hbody. injection Hbody as <- <-.
  split; [reflexivity |].
  destruct (run_extends net (Papers.enrichment
              (Val.ToString (Val.withDefault db (JStr "pmc"))) firstPass) ([] ++ [url]))
    as [more Hmore].
  rewrite Henrich in Hmore. cbn in Hmore.
  exists url, more, st, data, xmlDoc, db.
  repeat split; try assumption.
  rewrite (run_enrichment_length _ _ _ _ _ _ Henrich).
  now apply normalize_length.
Qed.

Lemma papers_total_is_number_of_records_witness :
  exists papers,
    Http.run (Samples.xmlUpstream Samples.pubmed_doc Samples.pmc_doc_full)
      (Papers.handler (Samples.papersRequest ["111"; "222"; "333"] "pubmed")) []
    = (inr (Http.json (Http.PapersBody papers 1)),
       [Papers.efetchUrl "pubmed" "111,222,333"; Papers.efetchUrl "pmc" "9999"])
    /\ 1%nat = length papers.
Proof.
  eexists. split; [reflexivity |].
  eapply (proj1 (papers_total_is_number_of_records
                   (Samples.xmlUpstream Samples.pubmed_doc Samples.pmc_doc_full)
                   (Samples.papersRequest ["111"; "222"; "333"] "pubmed")
                   _ _ _ 1%nat eq_refl eq_refl)).
Defined.

(** ** The model on concrete inputs *)

Example trim_ex : Js.trim "  a b  " = "a b".
Proof. reflexivity. Qed.

Example padStart_ex :
  Js.padStart 2 "0" "3" = "03" /\ Js.padStart 2 "0" "12" = "12"
  /\ Js.padStart 2 "0" "Mar" = "Mar" /\ Js.padStart 5 "ab" "x" = "ababx".
Proof. repeat split. Qed.

Example parseInt_ex :
  Js.parseIntStr " -12abc" = Some (-12)%Z /\ Js.parseIntStr "abc" = None
  /\ Js.parseIntStr "1.5" = Some 1%Z /\ Val.parseInt (JNum 10) = Some 10%Z
  /\ Val.parseInt (JArr [JStr "5"; JNull]) = Some 5%Z.
Proof. repeat split. Qed.

Example ToString_ex :
  Val.ToString (JArr [JStr "5"; JNull; JNum 7]) = "5,,7"
  /\ Val.ToString (JNum (-15)) = "-15" /\ Val.ToString (JNum 0) = "0".
Proof. repeat split. Qed.

Example encodeURIComponent_ex : Js.encodeURIComponent "a b&c" = "a%20b%26c".
Proof. reflexivity. Qed.

Example endsWith_includes_ex :
  Js.endsWith ".pdf" "x.pdf" = true /\ Js.endsWith ".pdf" "x.pdfa" = false
  /\ Js.includes "pdf" "application/pdf" = true.
Proof. repeat split. Qed.

(** A selector looks at all the ancestors of an element, also those above
    the element the query is made on. *)
Example querySelectorAll_ancestors :
  let doc :=
    Elem "abstract" []
      [Elem "article" [] [Elem "p" [] [Text "x"; Elem "b" [] [Text "y"]]]] in
  (fun article => map Dom.textContent (Dom.querySelectorAll Normalizer.selAbstractP article))
    <$> Dom.docQuerySelector (Dom.tag "article") doc
  = Some ["xy"].
Proof. reflexivity. Qed.

(** [POST /api/papers {ids: ["PMC9999"], db: "pmc"}] against a PMC answer
    with the article 9999 and no PDF link. *)
Example papers_pmc_9999 :
  let doc := Elem "pmc-articleset" [] [Elem "article" [] (Dom.childNodes Samples.pmc_9999)] in
  exists record,
    Http.run (Samples.xmlUpstream doc doc)
      (Papers.handler (Samples.papersRequest ["PMC9999"] "pmc")) []
    = (inr (Http.json (Http.PapersBody [record] 1)), [Papers.efetchUrl "pmc" "9999"])
    /\ Normalizer.pmcid record = "9999"
    /\ Normalizer.pdfUrl record = "https://www.ncbi.nlm.nih.gov/pmc/articles/PMC9999/pdf/".
Proof. eexists. split; [reflexivity | split; reflexivity]. Qed.

(** * Further properties *)

(** ** Trimming *)

Lemma trimStart_startsClean (s : string) : Props.startsClean (Js.trimStart s).
Proof.
  induction s as [|c s IH]; cbn [Js.trimStart]; [exact I |].
  destruct (Js.isWhiteSpace c) eqn:E; [exact IH | exact E].
Qed.

Lemma trimStart_fixed (s : string) : Props.startsClean s -> Js.trimStart s = s.
Proof. destruct s as [|c s]; cbn; [reflexivity | now intros ->]. Qed.

Lemma trimEnd_startsClean (s : string) :
  Props.startsClean s -> Props.startsClean (Js.trimEnd s).
Proof.
  destruct s as [|c s]; cbn [Js.trimEnd Props.startsClean]; [auto |].
  intros Hc. rewrite Hc. exact Hc.
Qed.

Lemma trimEnd_endsClean (s : string) : Props.endsClean (Js.trimEnd s).
Proof.
  induction s as [|c s IH]; cbn [Js.trimEnd]; [exact I |].
  destruct (Js.isWhiteSpace c) eqn:Hc; cbn [andb].
  - destruct (Js.trimEnd s) as [|d r] eqn:Hr; [exact I | exact IH].
  - destruct (Js.trimEnd s) as [|d r] eqn:Hr; [exact Hc | exact IH].
Qed.

Lemma trimEnd_cons (c : ascii) (s : string) :
  Js.trimEnd (String c s)
  = if Js.isWhiteSpace c && (Js.trimEnd s =? "")%string
    then EmptyString else String c (Js.trimEnd s).
Proof. reflexivity. Qed.

Lemma trimEnd_fixed (s : string) : Props.endsClean s -> Js.trimEnd s = s.
Proof.
  induction s as [|c s IH]; [reflexivity |].
  destruct s as [|d r].
  - cbn. now intros ->.
  - intros H. change (Props.endsClean (String d r)) in H.
    rewrite trimEnd_cons, (IH H). now rewrite eqb_empty_false, andb_false_r.
Qed.

Lemma trim_trimmed (s : string) : Props.trimmed (Js.trim s).
Proof.
  split.
  - apply trimEnd_startsClean, trimStart_startsClean.
  - apply trimEnd_endsClean.
Qed.

Lemma trim_fixed (s : string) : Props.trimmed s <-> Js.trim s = s.
Proof.
  split.
  - intros [Hs He]. unfold Js.trim. now rewrite (trimStart_fixed s Hs), (trimEnd_fixed s He).
  - intros <-. apply trim_trimmed.
Qed.

(** X1: the [title], [articletitle] and [source] of every record the
    normaliser builds, from either schema, and of every record the
    enrichment pass overlays, have no white space at either end; trimming
    them again changes nothing. *)
Theorem record_text_is_trimmed
    (article : Dom.element) (old : Normalizer.paper) (pmcIdInXml : string) :
  Props.textTrimmed (Normalizer.normalizePubmed article)
  /\ Props.textTrimmed (Normalizer.normalizePmc article)
  /\ Props.textTrimmed (Enrichment.overlay old article pmcIdInXml)
  /\ (forall s, Props.trimmed s <-> Js.trim s = s).
Proof.
  unfold Props.textTrimmed, Normalizer.normalizePubmed.
  destruct (Normalizer.pubmedAuthors article).
  cbn [Normalizer.normalizePmc Enrichment.overlay Normalizer.title
       Normalizer.articletitle Normalizer.source].
  repeat split; try apply trim_trimmed; apply trim_fixed; assumption.
Qed.


(** ** Records *)

Section RecordFacts.
Import Dom Normalizer.

Lemma querySelectorAll_no_descendants (s : selector) (e : element) :
  descendants e = [] -> querySelectorAll s e = [].
Proof. unfold querySelectorAll. now intros ->. Qed.

Lemma textOr_no_descendants (s : selector) (e : element) :
  descendants e = [] -> textOr s e = "".
Proof.
  intros H. unfold textOr, textOf, querySelector.
  now rewrite (querySelectorAll_no_descendants s e H).
Qed.

Lemma append_nonEmpty (a b : string) : a <> "" -> a +:+ b <> "".
Proof. destruct a; [congruence | discriminate]. Qed.

Lemma pmcPdfUrl_nonEmpty (article : element) (id : string) :
  pmcPdfUrl article id <> "".
Proof.
  rewrite pmcPdfUrl_chain. unfold Spec.pdfChain, Spec.selfUriPdfHref, Spec.pdfSelfUri.
  assert (Htemplate : pdfTemplate id <> "") by discriminate.
  assert (Hext : match Spec.extLinkPdfHref article with
                 | Some href => href
                 | None => pdfTemplate id
                 end <> "").
  { destruct (Spec.extLinkPdfHref article) as [href|] eqn:E; [| exact Htemplate].
    apply find_endsPdf_nonEmpty in E. now apply nonEmpty_true. }
  destruct (querySelector (tag "self-uri") article) as [selfUri|]; [| exact Hext].
  destruct (getAttribute "content-type" selfUri) as [ct|]; [| exact Hext].
  destruct (getAttribute "xlink:href" selfUri) as [href|]; [| exact Hext].
  destruct (Js.includes "pdf" (Js.toLowerCase ct)); cbn [andb]; [| exact Hext].
  destruct (nonEmpty href) eqn:Hh; [| exact Hext].
  destruct (Js.startsWith "http" href); [now apply nonEmpty_true | exact Htemplate].
Qed.

End RecordFacts.

(** X2: an article element with no element inside it gives the record of
    defaults.  From the PubMed schema every field is empty, but for the
    no-abstract text and the author Unknown; from the PMC schema the same,
    but for [pdfUrl], which is the template URL with an empty id. *)
Theorem empty_article_gives_defaults (article : Dom.element) :
  Dom.descendants article = [] ->
  Normalizer.normalizePubmed article
  = Normalizer.mkPaper "" "" "" "No abstract available." "Unknown" "" [] "" "" ""
  /\ Normalizer.normalizePmc article
     = Normalizer.mkPaper "" "" "" "No abstract available." "Unknown" "" [] "" ""
         "https://www.ncbi.nlm.nih.gov/pmc/articles/PMC/pdf/".
Proof.
  intros H.
  assert (Hall : forall s, Dom.querySelectorAll s article = [])
    by (intros s; now apply querySelectorAll_no_descendants).
  assert (Hone : forall s, Dom.querySelector s article = None)
    by (intros s; unfold Dom.querySelector; now rewrite Hall).
  assert (Htext : forall s, Normalizer.textOr s article = "")
    by (intros s; now apply textOr_no_descendants).
  split.
  - unfold Normalizer.normalizePubmed, Normalizer.pubmedAuthors,
      Normalizer.pubmedAbstract, Normalizer.pubmedJournal, Normalizer.pubmedPubDate,
      Normalizer.pubmedPmcId.
    rewrite !Hone, !Hall, !Htext. reflexivity.
  - unfold Normalizer.normalizePmc, Normalizer.pmcAuthors, Normalizer.pmcAbstract,
      Normalizer.pmcPubDate, Normalizer.pmcPdfUrl.
    rewrite !Hone, !Hall, !Htext. reflexivity.
Qed.

Lemma empty_article_gives_defaults_witness :
  Normalizer.normalizePubmed (Props.textOnly "no markup" "PubmedArticle")
  = Normalizer.mkPaper "" "" "" "No abstract available." "Unknown" "" [] "" "" ""
  /\ Normalizer.normalizePmc (Props.textOnly "no markup" "PubmedArticle")
     = Normalizer.mkPaper "" "" "" "No abstract available." "Unknown" "" [] "" ""
         "https://www.ncbi.nlm.nih.gov/pmc/articles/PMC/pdf/".
Proof.
  apply (empty_article_gives_defaults (Props.textOnly "no markup" "PubmedArticle")).
  reflexivity.
Defined.

(** X3: in a PubMed-schema record [pdfUrl] is the template URL built from
    [pmcid], and it is empty exactly when [pmcid] is empty; in a PMC-schema
    record, and in an overlaid record, [pdfUrl] is never empty, also when
    the article has no pmc id. *)
Theorem pdfUrl_presence
    (article : Dom.element) (old : Normalizer.paper) (pmcIdInXml : string) :
  let pubmed := Normalizer.normalizePubmed article in
  Normalizer.pdfUrl pubmed
  = (if (Normalizer.pmcid pubmed =? "")%string then ""
     else "https://www.ncbi.nlm.nih.gov/pmc/articles/PMC"
          +:+ Normalizer.pmcid pubmed +:+ "/pdf/")
  /\ (Normalizer.pdfUrl pubmed = "" <-> Normalizer.pmcid pubmed = "")
  /\ Normalizer.pdfUrl (Normalizer.normalizePmc article) <> ""
  /\ Normalizer.pdfUrl (Enrichment.overlay old article pmcIdInXml) <> "".
Proof.
  cbn zeta. unfold Normalizer.normalizePubmed.
  destruct (Normalizer.pubmedAuthors article).
  cbn [Normalizer.pdfUrl Normalizer.pmcid Normalizer.normalizePmc Enrichment.overlay].
  split; [| split; [| split; apply pmcPdfUrl_nonEmpty]];
    destruct (Sanitizer.cleanPmcIdStr (Normalizer.pubmedPmcId article)) as [|c r];
    first [ reflexivity | (split; reflexivity) | (split; discriminate) ].
Qed.


(** X4: in every record the normaliser builds, [authors] is [authorsArray]
    joined by a comma and a space, [sortfirstauthor] is its first entry, or
    Unknown when it is empty, and no entry is empty; from the PubMed schema
    no entry is Unknown either.  An overlay from a PMC article without
    authors empties [authors] and [authorsArray] and leaves the record's
    [sortfirstauthor] as it was. *)
Theorem author_fields
    (article : Dom.element) (old : Normalizer.paper) (pmcIdInXml : string) :
  Props.authorsConsistent (Normalizer.normalizePubmed article)
  /\ Forall (fun name => name <> "Unknown")
       (Normalizer.authorsArray (Normalizer.normalizePubmed article))
  /\ Props.authorsConsistent (Normalizer.normalizePmc article)
  /\ (Normalizer.pmcAuthors article = [] ->
      Normalizer.authors (Enrichment.overlay old article pmcIdInXml) = ""
      /\ Normalizer.authorsArray (Enrichment.overlay old article pmcIdInXml) = []
      /\ Normalizer.sortfirstauthor (Enrichment.overlay old article pmcIdInXml)
         = Normalizer.sortfirstauthor old).
Proof.
  assert (Hpubmed :
    forall l, Forall (fun name => name <> "" /\ name <> "Unknown")
      (filter (fun name => Normalizer.nonEmpty name && negb (name =? "Unknown")%string = true) l)).
  { intros l. apply Forall_forall. intros name Hin.
    apply list_elem_of_filter in Hin as [Hp _].
    apply andb_true_iff in Hp as [H1 H2]. split.
    - now apply nonEmpty_true.
    - intros ->. discriminate H2. }
  assert (Hpmc : Forall (fun name => name <> "") (Normalizer.pmcAuthors article)).
  { unfold Normalizer.pmcAuthors. apply Forall_forall. intros name Hin.
    apply list_elem_of_filter in Hin as [Hp _]. now apply nonEmpty_true. }
  assert (Hoverlay :
    Normalizer.pmcAuthors article = [] ->
    Normalizer.authors (Enrichment.overlay old article pmcIdInXml) = ""
    /\ Normalizer.authorsArray (Enrichment.overlay old article pmcIdInXml) = []
    /\ Normalizer.sortfirstauthor (Enrichment.overlay old article pmcIdInXml)
       = Normalizer.sortfirstauthor old).
  { intros H. cbn [Enrichment.overlay Normalizer.authors Normalizer.authorsArray
                   Normalizer.sortfirstauthor]. now rewrite H. }
  assert (Hcons_pmc : Props.authorsConsistent (Normalizer.normalizePmc article)).
  { unfold Props.authorsConsistent.
    cbn [Normalizer.normalizePmc Normalizer.authors Normalizer.authorsArray
         Normalizer.sortfirstauthor].
    repeat split; try exact Hpmc; now destruct (Normalizer.pmcAuthors article). }
  unfold Props.authorsConsistent, Normalizer.normalizePubmed, Normalizer.pubmedAuthors.
  destruct (Dom.querySelector (Dom.tag "AuthorList") article) as [authorList|];
    cbn [Normalizer.authors Normalizer.authorsArray Normalizer.sortfirstauthor].
  - specialize (Hpubmed (map Normalizer.pubmedAuthorName
      (Dom.querySelectorAll (Dom.tag "Author") authorList))).
    set (names := filter _ _) in *.
    split; [| split; [| split; [exact Hcons_pmc | exact Hoverlay]]].
    + split; [reflexivity | split; [now destruct names |]].
      eapply Forall_impl; [exact Hpubmed | now intros ? []].
    + eapply Forall_impl; [exact Hpubmed | now intros ? []].
  - split; [| split; [| split; [exact Hcons_pmc | exact Hoverlay]]].
    + split; [reflexivity | split; [reflexivity | constructor]].
    + constructor.
Qed.

Lemma author_fields_witness :
  Normalizer.authors
    (Enrichment.overlay (Normalizer.normalizePubmed Samples.pubmed_2021_3_7)
       Samples.pmc_9999 "9999") = ""
  /\ Normalizer.authorsArray
       (Enrichment.overlay (Normalizer.normalizePubmed Samples.pubmed_2021_3_7)
          Samples.pmc_9999 "9999") = []
  /\ Normalizer.sortfirstauthor
       (Enrichment.overlay (Normalizer.normalizePubmed Samples.pubmed_2021_3_7)
          Samples.pmc_9999 "9999")
     = Normalizer.sortfirstauthor (Normalizer.normalizePubmed Samples.pubmed_2021_3_7).
Proof.
  apply (proj2 (proj2 (proj2 (author_fields Samples.pmc_9999
           (Normalizer.normalizePubmed Samples.pubmed_2021_3_7) "9999")))).
  reflexivity.
Defined.

(** X5: when the [PubDate] of a PubMed article yields a year, [pubdate] is
    year-month (month left-padded to width 2) when it yields a month and no
    day, and the bare year when it yields no month, whether or not it yields
    a day. *)
Theorem pubmed_pubdate_partial
    (pubmedArticle pubDateElement : Dom.element) (year month day : string) :
  Dom.querySelector (Dom.tag "PubDate") pubmedArticle = Some pubDateElement ->
  Normalizer.trimmedTextOr (Dom.tag "Year") pubDateElement = year ->
  Normalizer.trimmedTextOr (Dom.tag "Month") pubDateElement = month ->
  Normalizer.trimmedTextOr (Dom.tag "Day") pubDateElement = day ->
  year <> "" ->
  (month <> "" -> day = "" ->
   exists mm,
     Normalizer.pubdate (Normalizer.normalizePubmed pubmedArticle) = year +:+ "-" +:+ mm
     /\ Spec.leftPadded 2 "0" month mm)
  /\ (month = "" ->
      Normalizer.pubdate (Normalizer.normalizePubmed pubmedArticle) = year).
Proof.
  intros Hpd Hy Hm Hd Hy0.
  rewrite pubdate_normalizePubmed. unfold Normalizer.pubmedPubDate.
  rewrite Hpd, Hy, Hm, Hd. unfold Normalizer.composeDate.
  rewrite (nonEmpty_of_ne _ Hy0). split.
  - intros Hm0 ->. exists (Js.padStart 2 "0" month).
    split; [| apply padStart_leftPadded].
    now rewrite (nonEmpty_of_ne _ Hm0).
  - intros ->. reflexivity.
Qed.

Lemma pubmed_pubdate_partial_witness :
  Normalizer.pubdate (Normalizer.normalizePubmed Props.pubmed_year_day) = "2019".
Proof.
  eapply (proj2 (pubmed_pubdate_partial Props.pubmed_year_day _ "2019" "" "17"
                   eq_refl eq_refl eq_refl eq_refl ltac:(discriminate))).
  reflexivity.
Defined.

(** X6: the [pubdate] of a PMC-schema record is empty exactly when the
    article gives no year (no [pub-date], or no [year] text under it):
    there is no fallback element.  An overlay then leaves the [pubdate] of
    the record as it was. *)
Theorem pmc_pubdate_needs_year (article : Dom.element) (old : Normalizer.paper)
    (pmcIdInXml : string) :
  (Normalizer.pubdate (Normalizer.normalizePmc article) = ""
   <-> Spec.pubYear article = "")
  /\ (Spec.pubYear article = "" ->
      Normalizer.pubdate (Enrichment.overlay old article pmcIdInXml)
      = Normalizer.pubdate old).
Proof.
  cbn [Normalizer.normalizePmc Normalizer.pubdate Enrichment.overlay].
  unfold Spec.pubYear, Normalizer.pmcPubDate.
  destruct (Dom.querySelector (Dom.tag "pub-date") article) as [pd|];
    [| split; [split |]; reflexivity].
  unfold Normalizer.composeDate.
  destruct (Normalizer.trimmedTextOr (Dom.tag "year") pd) as [|c year] eqn:Hy.
  - split; [split |]; reflexivity.
  - split; [| discriminate].
    cbn [Normalizer.nonEmpty String.eqb negb andb].
    destruct (Normalizer.nonEmpty (Normalizer.trimmedTextOr (Dom.tag "month") pd));
      [destruct (Normalizer.nonEmpty (Normalizer.trimmedTextOr (Dom.tag "day") pd)) |];
      split; discriminate.
Qed.


(** ** More on the enrichment pass *)

(** X7: the enrichment pass neither adds, removes nor reorders records, and
    changes the [pmcid] and the [uid] of none; with no PMC article it
    changes nothing. *)
Theorem enrichment_keeps_the_batch
    (papers : list Normalizer.paper) (pmcArticles : list Dom.element) :
  length (Enrichment.enrich papers pmcArticles) = length papers
  /\ Normalizer.pmcid <$> Enrichment.enrich papers pmcArticles = Normalizer.pmcid <$> papers
  /\ Normalizer.uid <$> Enrichment.enrich papers pmcArticles = Normalizer.uid <$> papers
  /\ Enrichment.enrich papers [] = papers.
Proof.
  assert (Hkeys := enrich_keys papers pmcArticles).
  split; [apply enrich_length |]. split; [now apply keys_pmcids |].
  split; [| reflexivity].
  apply (f_equal (fmap snd)) in Hkeys.
  now rewrite <- !list_fmap_compose in Hkeys.
Qed.

(** X8: a record whose [pmcid] is the sanitised id of none of the returned
    PMC articles comes out of the enrichment pass as it went in. *)
Theorem enrichment_leaves_unmatched_records
    (papers : list Normalizer.paper) (pmcArticles : list Dom.element)
    (i : nat) (r : Normalizer.paper) :
  papers !! i = Some r ->
  Forall (fun article => Spec.articleId article <> Normalizer.pmcid r) pmcArticles ->
  Enrichment.enrich papers pmcArticles !! i = Some r.
Proof. apply enrich_other. Qed.

Lemma enrichment_leaves_unmatched_records_witness :
  Enrichment.enrich [Props.paper_without_xref] [Samples.pmc_article_full] !! 0%nat
  = Some Props.paper_without_xref.
Proof.
  apply (enrichment_leaves_unmatched_records [Props.paper_without_xref]
           [Samples.pmc_article_full] 0 Props.paper_without_xref eq_refl).
  repeat constructor. discriminate.
Defined.

(** X9: a returned PMC article with no [article-id[pub-id-type='pmc']]
    element has the empty id, and is joined to the first record whose
    [pmcid] is empty: a record with no cross-reference is overlaid by it. *)
Theorem enrichment_joins_on_the_empty_id
    (papers : list Normalizer.paper) (article : Dom.element)
    (i : nat) (r : Normalizer.paper) :
  Dom.querySelector Normalizer.selPmcId article = None ->
  Spec.firstWith "" papers i ->
  papers !! i = Some r ->
  Enrichment.enrichOne papers article = <[i := Enrichment.overlay r article ""]> papers
  /\ Enrichment.enrichOne papers article !! i = Some (Enrichment.overlay r article "").
Proof.
  intros Hnone Hfirst Hi.
  assert (Hid : Spec.articleId article = "").
  { unfold Spec.articleId, Normalizer.textOr, Dom.textOf. now rewrite Hnone. }
  assert (Hone := enrichOne_first papers article i r).
  rewrite Hid in Hone. specialize (Hone Hfirst Hi).
  split; [exact Hone |]. rewrite Hone.
  apply list_lookup_insert_eq. now apply lookup_lt_Some with r.
Qed.

Lemma enrichment_joins_on_the_empty_id_witness :
  Enrichment.enrichOne [Props.paper_without_xref] Props.pmc_without_id
  = <[0%nat := Enrichment.overlay Props.paper_without_xref Props.pmc_without_id ""]>
      [Props.paper_without_xref]
  /\ Enrichment.enrichOne [Props.paper_without_xref] Props.pmc_without_id !! 0%nat
     = Some (Normalizer.mkPaper "" "222" "Somebody else's title" "No abstract available."
               "Unknown" "" [] "" ""
               "https://www.ncbi.nlm.nih.gov/pmc/articles/PMC/pdf/").
Proof.
  apply (enrichment_joins_on_the_empty_id [Props.paper_without_xref]
           Props.pmc_without_id 0 Props.paper_without_xref eq_refl).
  - split; [reflexivity | intros j Hj; inversion Hj].
  - reflexivity.
Defined.

Example enrichment_overwrites_unreferenced_title :
  Normalizer.title Props.paper_without_xref = "Not in PMC"
  /\ Normalizer.title <$> Enrichment.enrich [Props.paper_without_xref] [Props.pmc_without_id]
     = ["Somebody else's title"].
Proof. split; reflexivity. Qed.

(** ** Upstream calls *)

Section CallFacts.
Import Http.

Lemma cam_weaken {A : Type} (n m : nat) (p : prog A) :
  Props.callsAtMost n p -> (n <= m)%nat -> Props.callsAtMost m p.
Proof.
  intros Hp. revert m. induction Hp as [n a | n e | n url k _ IH]; intros m Hle.
  - constructor.
  - constructor.
  - destruct m as [|m]; [lia |]. constructor. intros o. apply IH. lia.
Qed.

Lemma cam_bind {A B : Type} (n m : nat) (p : prog A) (f : A -> prog B) :
  Props.callsAtMost n p ->
  (forall a, Props.callsAtMost m (f a)) ->
  Props.callsAtMost (n + m) (bind p f).
Proof.
  intros Hp Hf. induction Hp as [n a | n e | n url k _ IH]; cbn [bind].
  - apply cam_weaken with m; [apply Hf | lia].
  - constructor.
  - cbn [Nat.add]. constructor. exact IH.
Qed.

Lemma cam_tryCatch {A : Type} (n : nat) (p : prog A) (h : js_error -> prog A) :
  Props.callsAtMost n p ->
  (forall e, Props.callsAtMost 0 (h e)) ->
  Props.callsAtMost n (tryCatch p h).
Proof.
  intros Hp Hh. induction Hp as [n a | n e | n url k _ IH]; cbn [tryCatch].
  - constructor.
  - apply cam_weaken with 0%nat; [apply Hh | lia].
  - constructor. exact IH.
Qed.

Lemma cam_axiosGet (url : string) : Props.callsAtMost 1 (axiosGet url).
Proof. constructor. intros [st data | e]; constructor. Qed.

(** A run of a program that makes at most [n] calls adds at most [n] URLs
    to the list. *)
Lemma cam_run {A : Type} (net : upstream) (n : nat) (p : prog A) (calls : list string) :
  Props.callsAtMost n p ->
  (length (snd (run net p calls)) <= length calls + n)%nat.
Proof.
  intros Hp. revert calls. induction Hp as [n a | n e | n url k _ IH]; intros calls; cbn.
  - lia.
  - lia.
  - specialize (IH (net calls url) (calls ++ [url])).
    rewrite length_app in IH. cbn in IH. lia.
Qed.

(** Binding a program that makes no call, or one GET. *)
Lemma cam_bind_pure {A B : Type} (m : nat) (p : prog A) (f : A -> prog B) :
  Props.callsAtMost 0 p ->
  (forall a, Props.callsAtMost m (f a)) ->
  Props.callsAtMost m (bind p f).
Proof. intros Hp Hf. exact (cam_bind 0 m p f Hp Hf). Qed.

Lemma cam_bind_get {B : Type} (m : nat) (url : string) (f : Z * payload -> prog B) :
  (forall a, Props.callsAtMost m (f a)) ->
  Props.callsAtMost (S m) (bind (axiosGet url) f).
Proof. intros Hf. exact (cam_bind 1 m _ f (cam_axiosGet url) Hf). Qed.

Local Ltac count_calls :=
  repeat match goal with
    | |- Props.callsAtMost _ (bind (axiosGet _) _) => apply cam_bind_get; intros
    | |- Props.callsAtMost _ (bind (readProp _ _) _) =>
        apply cam_bind_pure; [unfold readProp | intros]
    | |- Props.callsAtMost _ (bind (parseXml _) _) =>
        apply cam_bind_pure; [unfold parseXml | intros]
    | |- Props.callsAtMost _ (Ret _) => constructor
    | |- Props.callsAtMost _ (Throw _) => constructor
    | |- Props.callsAtMost _ (if ?c then _ else _) => destruct c
    | |- Props.callsAtMost _ (match ?x with _ => _ end) => destruct x
    end.

Lemma cam_search_body (req : http_request) :
  Props.callsAtMost 2 (Search.handlerBody req).
Proof. unfold Search.handlerBody, Search.search. count_calls. Qed.

Lemma cam_filterIds (ids : list jsval) : Props.callsAtMost 0 (Papers.filterIds ids).
Proof.
  induction ids as [|id rest IH]; cbn [Papers.filterIds]; [constructor |].
  apply cam_bind_pure; [unfold Papers.keepId; count_calls |].
  intros keep. apply cam_bind_pure; [exact IH | intros; constructor].
Qed.

Lemma cam_enrichment (db : string) (papers : list Normalizer.paper) :
  Props.callsAtMost 1 (Papers.enrichment db papers).
Proof. unfold Papers.enrichment. count_calls. Qed.

Lemma cam_papers_body (req : http_request) :
  Props.callsAtMost 2 (Papers.handlerBody req).
Proof.
  unfold Papers.handlerBody, Papers.destructure.
  destruct (Val.getProp (reqBody req) "ids") as [ids|]; cbn [bind]; [| constructor].
  destruct (Val.getProp (reqBody req) "db") as [db|]; cbn [bind]; [| constructor].
  destruct ids as [| | | | | | [|id0 ids] |]; try constructor.
  destruct (negb _); [constructor |].
  apply cam_bind_pure; [apply cam_filterIds | intros cleanedIds].
  destruct (length cleanedIds =? 0)%nat; [constructor |].
  apply cam_bind_get. intros [st data].
  apply cam_bind_pure; [unfold parseXml; count_calls | intros xmlDoc].
  destruct (Papers.normalize _ xmlDoc) as [papers|]; [| constructor].
  apply (cam_bind 1 0); [apply cam_enrichment | intros; constructor].
Qed.

Lemma cam_paper_body (id : jsval) : Props.callsAtMost 2 (PaperById.handlerBody id).
Proof.
  unfold PaperById.handlerBody.
  apply cam_bind_pure; [destruct id; constructor | intros pubmedId].
  count_calls.
Qed.

End CallFacts.

(** X10: no run of a handler makes more than two upstream calls, and a
    request with a method other than the endpoint's own makes none. *)
Theorem handlers_make_at_most_two_calls (net : Http.upstream) (req : Http.http_request) :
  (length (snd (Http.run net (Search.handler req) [])) <= 2)%nat
  /\ (length (snd (Http.run net (Papers.handler req) [])) <= 2)%nat
  /\ (length (snd (Http.run net (PaperById.handler req) [])) <= 2)%nat
  /\ (Http.method req <> "GET" -> snd (Http.run net (Search.handler req) []) = [])
  /\ (Http.method req <> "POST" -> snd (Http.run net (Papers.handler req) []) = [])
  /\ (Http.method req <> "GET" -> snd (Http.run net (PaperById.handler req) []) = []).
Proof.
  assert (Hsearch : Props.callsAtMost 2 (Search.handler req)).
  { unfold Search.handler. destruct (_ =? _)%string; [constructor |].
    destruct (negb _); [constructor |].
    apply cam_tryCatch; [apply cam_search_body |].
    intros e. destruct (search_catch_answers e) as [r ->]. constructor. }
  assert (Hpapers : Props.callsAtMost 2 (Papers.handler req)).
  { unfold Papers.handler. destruct (_ =? _)%string; [constructor |].
    destruct (negb _); [constructor |].
    apply cam_tryCatch; [apply cam_papers_body | intros e; constructor]. }
  assert (Hpaper : Props.callsAtMost 2 (PaperById.handler req)).
  { unfold PaperById.handler. destruct (_ =? _)%string; [constructor |].
    destruct (negb (_ =? _)%string); [constructor |].
    destruct (negb _); [constructor |].
    apply cam_tryCatch; [apply cam_paper_body | intros e; constructor]. }
  split; [exact (cam_run net 2 _ [] Hsearch) |].
  split; [exact (cam_run net 2 _ [] Hpapers) |].
  split; [exact (cam_run net 2 _ [] Hpaper) |].
  unfold Search.handler, Papers.handler, PaperById.handler.
  repeat split; intros Hm;
    destruct (Http.method req =? "OPTIONS")%string; try reflexivity;
    match goal with
    | |- context [(Http.method req =? ?m)%string] =>
        destruct (String.eqb_spec (Http.method req) m); [contradiction | reflexivity]
    end.
Qed.

Lemma handlers_make_at_most_two_calls_witness :
  snd (Http.run (Samples.esearchUpstream "157" ["123"])
         (Search.handler (Http.mkRequest "DELETE" [("term", JStr "cancer")] JUndefined)) [])
  = [].
Proof.
  apply (proj1 (proj2 (proj2 (proj2 (handlers_make_at_most_two_calls
           (Samples.esearchUpstream "157" ["123"])
           (Http.mkRequest "DELETE" [("term", JStr "cancer")] JUndefined)))))).
  discriminate.
Defined.


(** ** The batch-papers endpoint, path by path *)

Section PapersPaths.
Import Http.

Lemma filterIds_strings (ids : list string) :
  Papers.filterIds (map Sanitizer.cleanPmcId (map JStr ids))
  = Ret (map JStr (Props.keptIds ids)).
Proof.
  unfold Props.keptIds.
  induction ids as [|id rest IH]; [reflexivity |].
  cbn [map Papers.filterIds Sanitizer.cleanPmcId Papers.keepId bind].
  rewrite IH. cbn [bind]. rewrite filter_cons, <- cleanPmcIdStr_eq.
  destruct (Normalizer.nonEmpty (Sanitizer.cleanPmcIdStr id)
            && Normalizer.nonEmpty (Js.trim (Sanitizer.cleanPmcIdStr id))) eqn:E.
  - rewrite decide_True by reflexivity. reflexivity.
  - rewrite decide_False by discriminate. reflexivity.
Qed.

Lemma filterIds_non_string (items : list jsval) :
  Exists (fun v => Props.isString v = false) items ->
  exists e, Papers.filterIds (map Sanitizer.cleanPmcId items) = Throw e.
Proof.
  induction items as [|v rest IH]; intros Hex; [inversion Hex |].
  cbn [map Papers.filterIds].
  destruct v as [| | | | |s| |];
    try (cbn [Sanitizer.cleanPmcId Papers.keepId bind]; eauto; fail).
  inversion Hex as [? ? Hv | ? ? Hrest]; subst; [discriminate Hv |].
  destruct (IH Hrest) as [e He].
  cbn [Sanitizer.cleanPmcId Papers.keepId bind]. rewrite He. cbn [bind]. eauto.
Qed.

Lemma map_ToString_JStr (l : list string) : map Val.ToString (map JStr l) = l.
Proof. induction l as [|x l IH]; cbn; [reflexivity | now rewrite IH]. Qed.

(** The [try] block of a request whose ids are strings, some of them kept,
    for a supported [db]: it starts with the efetch of the kept ids. *)
Lemma papers_body_strings (req : http_request) (ids : list string) (db0 : jsval)
    (db : string) :
  Val.getProp (reqBody req) "ids" = Some (JArr (map JStr ids)) ->
  Val.getProp (reqBody req) "db" = Some db0 ->
  Props.papersDb db0 = JStr db ->
  supported (JStr db) = true ->
  Props.keptIds ids <> [] ->
  Papers.handlerBody req
  = bind (axiosGet (Papers.efetchUrl db (Js.join "," (Props.keptIds ids))))
      (fun x => match x with
                | (_, data) =>
                    bind (parseXml data)
                      (fun xmlDoc =>
                         match Papers.normalize db xmlDoc with
                         | Some papers =>
                             bind (Papers.enrichment db papers)
                               (fun papers => Ret (json (PapersBody papers (length papers))))
                         | None =>
                             Ret (fail 400 ("Unsupported database for EFetch: " +:+ db))
                         end)
                end).
Proof.
  intros Hids Hdb Hdb' Hsup Hkept.
  unfold Papers.handlerBody, Papers.destructure. rewrite Hids, Hdb. cbn [bind].
  unfold Props.papersDb in Hdb'. rewrite Hdb', Hsup. cbn [negb].
  destruct ids as [|id0 ids']; [now destruct Hkept |].
  change (map JStr (id0 :: ids')) with (JStr id0 :: map JStr ids'). cbv iota.
  change (JStr id0 :: map JStr ids') with (map JStr (id0 :: ids')).
  rewrite filterIds_strings. cbn [bind].
  rewrite length_map, map_ToString_JStr.
  destruct (Props.keptIds (id0 :: ids')) as [|k ks] eqn:Ek; [now destruct Hkept |].
  reflexivity.
Qed.

End PapersPaths.


Section PapersPathFacts.
Import Http.

Lemma papers_handler_post (req : http_request) :
  method req = "POST" ->
  Papers.handler req = tryCatch (Papers.handlerBody req) Papers.handlerCatch.
Proof. intros H. unfold Papers.handler. now rewrite H. Qed.

End PapersPathFacts.

(** X11: a POST to the batch endpoint is answered without an upstream call
    when the body cannot be used: 500 when there is no body to destructure;
    400 when [ids] is not a non-empty array; 400 when [db] is not
    supported; 400 when the ids are strings and every one is empty or blank
    once sanitised; and 500 when some id is not a string. *)
Theorem papers_rejects_unusable_bodies (net : Http.upstream) (req : Http.http_request) :
  Http.method req = "POST" ->
  (Val.getProp (Http.reqBody req) "ids" = None ->
   exists details,
     Http.run net (Papers.handler req) []
     = (inr (Http.mkResponse 500 (Http.ErrorBody "Failed to fetch papers" (Some details))), []))
  /\ (forall ids db,
        Val.getProp (Http.reqBody req) "ids" = Some ids ->
        Val.getProp (Http.reqBody req) "db" = Some db ->
        (Props.nonEmptyArray ids = false ->
         Http.run net (Papers.handler req) []
         = (inr (Http.mkResponse 400
                   (Http.ErrorBody "IDs array is required and cannot be empty" None)),
            []))
        /\ (Props.nonEmptyArray ids = true ->
            Http.supported (Props.papersDb db) = false ->
            Http.run net (Papers.handler req) []
            = (inr (Http.mkResponse 400
                      (Http.ErrorBody "Invalid database. Supported databases: pubmed, pmc"
                         None)),
               []))
        /\ (forall strings,
              ids = JArr (map JStr strings) -> strings <> [] ->
              Http.supported (Props.papersDb db) = true ->
              Props.keptIds strings = [] ->
              Http.run net (Papers.handler req) []
              = (inr (Http.mkResponse 400
                        (Http.ErrorBody "No valid IDs provided after cleaning." None)),
                 []))
        /\ (forall items,
              ids = JArr items ->
              Http.supported (Props.papersDb db) = true ->
              Exists (fun v => Props.isString v = false) items ->
              exists details,
                Http.run net (Papers.handler req) []
                = (inr (Http.mkResponse 500
                          (Http.ErrorBody "Failed to fetch papers" (Some details))),
                   []))).
Proof.
  intros Hmethod. rewrite (papers_handler_post req Hmethod), run_tryCatch.
  unfold Papers.handlerBody, Papers.destructure, Props.papersDb. split.
  - intros ->. cbn. eauto.
  - intros ids db -> Hdb. rewrite Hdb. cbn [Http.bind].
    split; [| split; [| split]].
    + intros Hids. destruct ids as [| | | | | | [|id0 ids] |]; try reflexivity.
      discriminate Hids.
    + intros Hids Hsup. destruct ids as [| | | | | | [|id0 ids] |]; try discriminate Hids.
      now rewrite Hsup.
    + intros strings -> Hne Hsup Hkept. rewrite Hsup. cbn [negb].
      destruct strings as [|s0 strings]; [now destruct Hne |].
      change (map JStr (s0 :: strings)) with (JStr s0 :: map JStr strings). cbv iota.
      change (JStr s0 :: map JStr strings) with (map JStr (s0 :: strings)).
      rewrite filterIds_strings, Hkept. reflexivity.
    + intros items -> Hsup Hex. rewrite Hsup. cbn [negb].
      destruct items as [|v items]; [inversion Hex |].
      destruct (filterIds_non_string (v :: items) Hex) as [e He].
      rewrite He. cbn. eauto.
Qed.

Lemma papers_rejects_unusable_bodies_witness :
  Http.run Samples.notFoundUpstream (Papers.handler Props.blankIdsRequest) []
  = (inr (Http.mkResponse 400 (Http.ErrorBody "No valid IDs provided after cleaning." None)), []).
Proof.
  apply (proj1 (proj2 (proj2 (proj2
           (papers_rejects_unusable_bodies Samples.notFoundUpstream Props.blankIdsRequest
              eq_refl) _ JUndefined eq_refl eq_refl))))
    with (strings := ["PMC"; "pmc  "; ""]);
    first [ reflexivity | discriminate ].
Defined.

(** X12: a POST for [db = 'pmc'] with string ids, once the efetch of the
    kept ids (joined by commas, in the order given) is answered with an XML
    document, responds 200 with the PMC-schema record of every [article]
    element, in document order, and makes that one call: no enrichment call
    follows. *)
Theorem papers_pmc_path
    (net : Http.upstream) (req : Http.http_request) (ids : list string) (db0 : jsval)
    (st : Z) (data : Http.payload) (xmlDoc : node) :
  let url :=
    "https://eutils.ncbi.nlm.nih.gov/entrez/eutils/efetch.fcgi?db=pmc&id="
    +:+ Js.join "," (Props.keptIds ids) +:+ "&retmode=xml" in
  Http.method req = "POST" ->
  Val.getProp (Http.reqBody req) "ids" = Some (JArr (map JStr ids)) ->
  Val.getProp (Http.reqBody req) "db" = Some db0 ->
  Props.papersDb db0 = JStr "pmc" ->
  Props.keptIds ids <> [] ->
  net [] url = Http.Fulfilled st data ->
  Http.as_xml data = inr xmlDoc ->
  Http.run net (Papers.handler req) []
  = (inr (Http.mkResponse 200
            (Http.PapersBody
               (map Normalizer.normalizePmc
                  (Dom.docQuerySelectorAll (Dom.tag "article") xmlDoc))
               (length (Dom.docQuerySelectorAll (Dom.tag "article") xmlDoc)))),
     [url]).
Proof.
  intros url Hmethod Hids Hdb Hpmc Hkept Hnet Hxml.
  assert (Hurl : url = Papers.efetchUrl "pmc" (Js.join "," (Props.keptIds ids)))
    by reflexivity.
  clearbody url. subst url.
  rewrite (papers_handler_post req Hmethod), run_tryCatch.
  rewrite (papers_body_strings req ids db0 "pmc" Hids Hdb Hpmc eq_refl Hkept).
  unfold Http.axiosGet, Http.parseXml. cbn [Http.bind Http.run].
  rewrite Hnet. cbn [Http.bind Http.run]. rewrite Hxml. cbn [Http.bind Http.run].
  change (Papers.normalize "pmc" xmlDoc)
    with (Some (map Normalizer.normalizePmc
                  (Dom.docQuerySelectorAll (Dom.tag "article") xmlDoc))).
  change (Papers.enrichment "pmc") with (fun papers : list Normalizer.paper => Http.Ret papers).
  cbn [Http.bind Http.run app]. now rewrite length_map.
Qed.

Lemma papers_pmc_path_witness :
  Http.run (Samples.xmlUpstream Samples.pmc_doc_full Samples.pmc_doc_full)
    (Papers.handler (Samples.papersRequest ["PMC9999"; "PMC"] "pmc")) []
  = (inr (Http.mkResponse 200
            (Http.PapersBody
               [Normalizer.mkPaper "9999" "" "PMC title" "PMC abstract" "J. Doe" "J. Doe"
                  ["J. Doe"] "PMC journal" "2020-12-01"
                  "https://www.ncbi.nlm.nih.gov/pmc/articles/PMC9999/pdf/"]
               1)),
     ["https://eutils.ncbi.nlm.nih.gov/entrez/eutils/efetch.fcgi?db=pmc&id=9999&retmode=xml"]).
Proof.
  apply (papers_pmc_path (Samples.xmlUpstream Samples.pmc_doc_full Samples.pmc_doc_full)
           (Samples.papersRequest ["PMC9999"; "PMC"] "pmc") ["PMC9999"; "PMC"]
           (JStr "pmc") 200%Z (Http.mkPayload JNull (inr Samples.pmc_doc_full))
           Samples.pmc_doc_full);
    first [ reflexivity | discriminate ].
Defined.

(** X13: a POST for [db = 'pubmed'] with string ids, once the efetch of the
    kept ids is answered with an XML document.  When no record of the first
    pass has a [pmcid], the response is the first pass and no second call
    is made.  Otherwise the second call is the PMC efetch of the non-empty
    [pmcid]s, joined by commas in record order; answered with an XML
    document, the response is the enrichment of the first pass by its
    [article] elements; answered with anything JSDOM cannot parse, the
    whole request fails with 500. *)
Theorem papers_pubmed_path
    (net : Http.upstream) (req : Http.http_request) (ids : list string) (db0 : jsval)
    (st : Z) (data : Http.payload) (xmlDoc : node) :
  let firstUrl :=
    "https://eutils.ncbi.nlm.nih.gov/entrez/eutils/efetch.fcgi?db=pubmed&id="
    +:+ Js.join "," (Props.keptIds ids) +:+ "&retmode=xml" in
  let firstPass :=
    map Normalizer.normalizePubmed
      (Dom.docQuerySelectorAll (Dom.tag "PubmedArticle") xmlDoc) in
  let secondUrl :=
    "https://eutils.ncbi.nlm.nih.gov/entrez/eutils/efetch.fcgi?db=pmc&id="
    +:+ Js.join "," (Props.crossRefs firstPass) +:+ "&retmode=xml" in
  Http.method req = "POST" ->
  Val.getProp (Http.reqBody req) "ids" = Some (JArr (map JStr ids)) ->
  Val.getProp (Http.reqBody req) "db" = Some db0 ->
  Props.papersDb db0 = JStr "pubmed" ->
  Props.keptIds ids <> [] ->
  net [] firstUrl = Http.Fulfilled st data ->
  Http.as_xml data = inr xmlDoc ->
  (Props.crossRefs firstPass = [] ->
   Http.run net (Papers.handler req) []
   = (inr (Http.mkResponse 200 (Http.PapersBody firstPass (length firstPass))),
      [firstUrl]))
  /\ (Props.crossRefs firstPass <> [] ->
      forall st2 data2,
        net [firstUrl] secondUrl = Http.Fulfilled st2 data2 ->
        match Http.as_xml data2 with
        | inr pmcXmlDoc =>
            Http.run net (Papers.handler req) []
            = (inr (Http.mkResponse 200
                      (Http.PapersBody
                         (Enrichment.enrich firstPass
                            (Dom.docQuerySelectorAll (Dom.tag "article") pmcXmlDoc))
                         (length firstPass))),
               [firstUrl; secondUrl])
        | inl message =>
            Http.run net (Papers.handler req) []
            = (inr (Http.mkResponse 500
                      (Http.ErrorBody "Failed to fetch papers" (Some (JStr message)))),
               [firstUrl; secondUrl])
        end).
Proof.
  intros firstUrl firstPass secondUrl Hmethod Hids Hdb Hpubmed Hkept Hnet Hxml.
  assert (Hfirst : firstUrl = Papers.efetchUrl "pubmed" (Js.join "," (Props.keptIds ids)))
    by reflexivity.
  assert (Hsecond : secondUrl = Papers.efetchUrl "pmc" (Js.join "," (Props.crossRefs firstPass)))
    by reflexivity.
  clearbody firstUrl secondUrl. subst firstUrl secondUrl.
  set (firstUrl := Papers.efetchUrl "pubmed" (Js.join "," (Props.keptIds ids))) in *.
  set (secondUrl := Papers.efetchUrl "pmc" (Js.join "," (Props.crossRefs firstPass))).
  rewrite (papers_handler_post req Hmethod), run_tryCatch.
  rewrite (papers_body_strings req ids db0 "pubmed" Hids Hdb Hpubmed eq_refl Hkept).
  unfold Http.axiosGet, Http.parseXml. cbn [Http.bind Http.run].
  fold firstUrl. rewrite Hnet. cbn [Http.bind Http.run]. rewrite Hxml.
  cbn [Http.bind Http.run].
  change (Papers.normalize "pubmed" xmlDoc) with (Some firstPass). cbv iota.
  rewrite run_bind.
  change (Papers.enrichment "pubmed" firstPass)
    with (if (0 <? length (Props.crossRefs firstPass))%nat
          then Http.bind (Http.axiosGet secondUrl)
                 (fun x => match x with
                           | (_, pmcData) =>
                               Http.bind (Http.parseXml pmcData)
                                 (fun pmcXmlDoc =>
                                    Http.Ret (Enrichment.enrich firstPass
                                                (Dom.docQuerySelectorAll (Dom.tag "article")
                                                   pmcXmlDoc)))
                           end)
          else Http.Ret firstPass).
  split.
  - intros ->. reflexivity.
  - intros Hrefs st2 data2 Hnet2.
    destruct (Props.crossRefs firstPass) as [|k ks] eqn:Ek; [now destruct Hrefs |].
    cbn [length Nat.ltb Nat.leb]. unfold Http.axiosGet, Http.parseXml.
    cbn [Http.bind Http.run app]. rewrite Hnet2. cbn [Http.bind Http.run].
    destruct (Http.as_xml data2) as [message | pmcXmlDoc]; cbn [Http.bind Http.run].
    + reflexivity.
    + now rewrite enrich_length.
Qed.

Lemma papers_pubmed_path_witness :
  Http.run (Samples.xmlUpstream Samples.pubmed_doc Samples.pmc_doc_full)
    (Papers.handler (Samples.papersRequest ["111"] "pubmed")) []
  = (inr (Http.mkResponse 200
            (Http.PapersBody
               [Normalizer.mkPaper "9999" "111" "PMC title" "PMC abstract" "J. Doe" "J. Doe"
                  ["J. Doe"] "PMC journal" "2020-12-01"
                  "https://www.ncbi.nlm.nih.gov/pmc/articles/PMC9999/pdf/"]
               1)),
     ["https://eutils.ncbi.nlm.nih.gov/entrez/eutils/efetch.fcgi?db=pubmed&id=111&retmode=xml";
      "https://eutils.ncbi.nlm.nih.gov/entrez/eutils/efetch.fcgi?db=pmc&id=9999&retmode=xml"]).
Proof.
  apply (proj2 (papers_pubmed_path
                  (Samples.xmlUpstream Samples.pubmed_doc Samples.pmc_doc_full)
                  (Samples.papersRequest ["111"] "pubmed") ["111"] (JStr "pubmed") 200%Z
                  (Http.mkPayload JNull (inr Samples.pubmed_doc)) Samples.pubmed_doc
                  eq_refl eq_refl eq_refl eq_refl ltac:(discriminate) eq_refl eq_refl)
           ltac:(discriminate) 200%Z
           (Http.mkPayload JNull (inr Samples.pmc_doc_full)) eq_refl).
Defined.


(** ** The single-paper endpoint, path by path *)

Section PaperPathFacts.
Import Http.

Lemma paper_handler_get (req : http_request) (id : jsval) :
  method req = "GET" ->
  queryField req "id" = id ->
  Val.truthy id = true ->
  PaperById.handler req = tryCatch (PaperById.handlerBody id) PaperById.handlerCatch.
Proof.
  intros Hm Hid Ht. unfold PaperById.handler. rewrite Hm, Hid, Ht. reflexivity.
Qed.

Lemma trim_idempotent (s : string) : Js.trim (Js.trim s) = Js.trim s.
Proof. apply trim_fixed, trim_trimmed. Qed.

End PaperPathFacts.

(** X14: a GET to the single-paper endpoint is answered without an upstream
    call when the id cannot be used: 400 when it is missing or empty, 400
    when it trims to nothing or to a lone dollar sign, and 500 when it is
    not a string. *)
Theorem paper_rejects_unusable_ids (net : Http.upstream) (req : Http.http_request) :
  Http.method req = "GET" ->
  (Val.truthy (Http.queryField req "id") = false ->
   Http.run net (PaperById.handler req) []
   = (inr (Http.mkResponse 400 (Http.ErrorBody "Paper ID is required" None)), []))
  /\ (forall s,
        Http.queryField req "id" = JStr s -> s <> "" ->
        Js.trim s = "" \/ Js.trim s = "$" ->
        Http.run net (PaperById.handler req) []
        = (inr (Http.mkResponse 400 (Http.ErrorBody "Invalid Paper ID provided." None)), []))
  /\ (Val.truthy (Http.queryField req "id") = true ->
      Props.isString (Http.queryField req "id") = false ->
      Http.run net (PaperById.handler req) []
      = (inr (Http.mkResponse 500
                (Http.ErrorBody "Failed to fetch paper details"
                   (Some (JStr "id.trim is not a function")))),
         [])).
Proof.
  intros Hmethod. split; [| split].
  - intros Hid. unfold PaperById.handler. now rewrite Hmethod, Hid.
  - intros s Hid Hs Htrim.
    rewrite (paper_handler_get req (JStr s) Hmethod Hid)
      by (cbn; now destruct s).
    rewrite run_tryCatch. unfold PaperById.handlerBody. cbn [Http.bind].
    rewrite trim_idempotent. destruct Htrim as [-> | ->]; reflexivity.
  - intros Ht Hs.
    rewrite (paper_handler_get req _ Hmethod eq_refl Ht), run_tryCatch.
    destruct (Http.queryField req "id"); try discriminate Hs; reflexivity.
Qed.

Lemma paper_rejects_unusable_ids_witness :
  Http.run Samples.notFoundUpstream (PaperById.handler (Props.paperRequest " $ ")) []
  = (inr (Http.mkResponse 400 (Http.ErrorBody "Invalid Paper ID provided." None)), []).
Proof.
  apply (proj1 (proj2 (paper_rejects_unusable_ids Samples.notFoundUpstream
                         (Props.paperRequest " $ ") eq_refl)) " $ ");
    first [ reflexivity | discriminate | (right; reflexivity) ].
Defined.




(** ** The search endpoint, path by path *)

Section SearchPathFacts.
Import Http.

Lemma search_handler_valid (req : http_request) (start max : Z) :
  Props.validSearch req start max ->
  Search.handler req = tryCatch (Search.search req start max) Search.handlerCatch.
Proof.
  intros (Hm & Ht & Hdb & Hs & Hs0 & Hx & Hx0).
  unfold Search.handler, Search.handlerBody. rewrite Hm, Ht, Hdb, Hs, Hx.
  cbn [String.eqb Ascii.eqb Bool.eqb negb].
  destruct (Z.ltb_spec start 0); [lia |].
  destruct (Z.leb_spec max 0); [lia |].
  destruct (Z.ltb_spec 10000 max); [lia |]. reflexivity.
Qed.

End SearchPathFacts.

(** X16: the full page path of the search endpoint.  After a first answer
    with both tokens and a [count] that parses to an integer above the
    parsed [retstart], the second call carries the database, the query key,
    the session token and the parsed [retstart] and [retmax]; answered 200
    without an embedded error, the response is 200 with the id list of the
    second answer (or the empty list when it has none) and the count of the
    first answer. *)
Theorem search_page_path
    (net : Http.upstream) (req : Http.http_request) (start max count : Z)
    (data data2 : Http.payload) (esearchResult webenv querykey c : jsval)
    (esearchResultIds idlist : jsval) :
  let firstUrl :=
    "https://eutils.ncbi.nlm.nih.gov/entrez/eutils/esearch.fcgi?db="
    +:+ Val.ToString (Search.db req) +:+ "&term="
    +:+ Js.encodeURIComponent (Val.ToString (Search.term req))
    +:+ "&usehistory=y&retmode=json" in
  let secondUrl :=
    "https://eutils.ncbi.nlm.nih.gov/entrez/eutils/esearch.fcgi?db="
    +:+ Val.ToString (Search.db req)
    +:+ "&query_key=" +:+ Val.ToString querykey
    +:+ "&WebEnv=" +:+ Val.ToString webenv
    +:+ "&retstart=" +:+ Js.Z_to_string start
    +:+ "&retmax=" +:+ Js.Z_to_string max +:+ "&retmode=json" in
  Props.validSearch req start max ->
  net [] firstUrl = Http.Fulfilled 200 data ->
  Val.getProp (Http.as_json data) "esearchresult" = Some esearchResult ->
  Props.hasTokens esearchResult webenv querykey ->
  Val.getProp esearchResult "count" = Some c ->
  Val.parseInt c = Some count ->
  (start < count <= 9007199254740991)%Z ->
  net [firstUrl] secondUrl = Http.Fulfilled 200 data2 ->
  Val.getProp (Http.as_json data2) "esearchresult" = Some esearchResultIds ->
  Val.truthy (Search.embeddedError esearchResultIds) = false ->
  Val.getProp esearchResultIds "idlist" = Some idlist ->
  Http.run net (Search.handler req) []
  = (inr (Http.mkResponse 200
            (Http.SearchBody (if Val.truthy idlist then idlist else JArr [])
               count start max)),
     [firstUrl; secondUrl]).
Proof.
  intros firstUrl secondUrl Hvalid Hnet Hres (Herr & Hw & Hwt & Hq & Hqt) Hc Hcount Hlt
         Hnet2 Hres2 Herr2 Hidlist.
  assert (Hfirst : firstUrl = Search.searchUrl req) by reflexivity.
  assert (Hsecond : secondUrl = Search.efetchUrl req querykey webenv start max)
    by reflexivity.
  clearbody firstUrl secondUrl. subst firstUrl secondUrl.
  rewrite (search_handler_valid req start max Hvalid), run_tryCatch.
  unfold Search.search, Http.axiosGet, Http.readProp.
  cbn [Http.bind Http.run]. rewrite Hnet.
  cbn [Http.bind Http.run Z.eqb Pos.eqb negb].
  rewrite Hres. cbn [Http.bind Http.run]. rewrite Herr, Hw. cbn [Http.bind Http.run].
  rewrite Hq. cbn [Http.bind Http.run]. rewrite Hwt, Hqt. cbn [negb orb].
  rewrite (countOf_field esearchResult webenv c count Hw Hwt Hc Hcount).
  destruct (Z.leb_spec count start); [lia |].
  cbn [Http.bind Http.run app]. rewrite Hnet2.
  cbn [Http.bind Http.run Z.eqb Pos.eqb negb].
  rewrite Hres2. cbn [Http.bind Http.run]. rewrite Herr2, Hidlist.
  reflexivity.
Qed.

Lemma search_page_path_witness :
  Http.run (Samples.esearchUpstream "157" ["123"; "456"])
    (Search.handler (Samples.searchRequest "cancer" "pmc" "0" "2")) []
  = (inr (Http.mkResponse 200
            (Http.SearchBody (JArr [JStr "123"; JStr "456"]) 157 0 2)),
     ["https://eutils.ncbi.nlm.nih.gov/entrez/eutils/esearch.fcgi?db=pmc&term=cancer&usehistory=y&retmode=json";
      "https://eutils.ncbi.nlm.nih.gov/entrez/eutils/esearch.fcgi?db=pmc&query_key=1&WebEnv=MCID_1&retstart=0&retmax=2&retmode=json"]).
Proof.
  apply (search_page_path (Samples.esearchUpstream "157" ["123"; "456"])
           (Samples.searchRequest "cancer" "pmc" "0" "2") 0 2 157
           (Samples.esearchPayload "157" ["123"; "456"])
           (Samples.esearchPayload "157" ["123"; "456"])
           (Samples.esearchResult "157" ["123"; "456"]) (JStr "MCID_1") (JStr "1")
           (JStr "157")
           (Samples.esearchResult "157" ["123"; "456"])
           (JArr [JStr "123"; JStr "456"]));
    first [ reflexivity | lia
          | (repeat split; first [ reflexivity | lia ]) ].
Defined.

(** X17: how the first step of a valid search fails, always after exactly
    one upstream call.  A fulfilled answer with a status other than 200 is
    passed on with that status; an answer whose [esearchresult] has a truthy
    [ERROR] gives 500 with that error in the message; an answer without an
    [esearchresult] gives 500 through the [catch] block; an answer where a
    session token is missing gives 500. *)
Theorem search_first_step_failures
    (net : Http.upstream) (req : Http.http_request) (start max st : Z)
    (data : Http.payload) :
  Props.validSearch req start max ->
  net [] (Search.searchUrl req) = Http.Fulfilled st data ->
  (st <> 200%Z ->
   Http.run net (Search.handler req) []
   = (inr (Http.mkResponse st
             (Http.ErrorBody ("ESearch History API Error: " +:+ Js.Z_to_string st) None)),
      [Search.searchUrl req]))
  /\ (st = 200%Z ->
      forall esearchResult,
        Val.getProp (Http.as_json data) "esearchresult" = Some esearchResult ->
        (forall err,
           Val.getProp esearchResult "ERROR" = Some err -> Val.truthy err = true ->
           Http.run net (Search.handler req) []
           = (inr (Http.mkResponse 500
                     (Http.ErrorBody ("ESearch History API Error: " +:+ Val.ToString err)
                        None)),
              [Search.searchUrl req]))
        /\ (esearchResult = JUndefined ->
            Http.run net (Search.handler req) []
            = (inr (Http.mkResponse 500
                      (Http.ErrorBody "Internal Server Error during search"
                         (Some (JStr "Cannot read properties of undefined (reading 'webenv')")))),
               [Search.searchUrl req]))
        /\ (forall webenv querykey,
              Val.truthy (Search.embeddedError esearchResult) = false ->
              Val.getProp esearchResult "webenv" = Some webenv ->
              Val.getProp esearchResult "querykey" = Some querykey ->
              Val.truthy webenv && Val.truthy querykey = false ->
              Http.run net (Search.handler req) []
              = (inr (Http.mkResponse 500
                        (Http.ErrorBody "ESearch History API did not return required WebEnv or QueryKey for pagination." None)),
                 [Search.searchUrl req]))).
Proof.
  intros Hvalid Hnet.
  rewrite (search_handler_valid req start max Hvalid), run_tryCatch.
  unfold Search.search, Http.axiosGet, Http.readProp.
  cbn [Http.bind Http.run]. rewrite Hnet. cbn [Http.bind Http.run app]. split.
  - intros Hst. destruct (Z.eqb_spec st 200); [contradiction | reflexivity].
  - intros -> esearchResult Hres. cbn [Z.eqb Pos.eqb negb].
    rewrite Hres. cbn [Http.bind Http.run]. split; [| split].
    + intros err Herr Ht.
      assert (Hemb : Search.embeddedError esearchResult = err).
      { unfold Search.embeddedError. rewrite Herr.
        destruct esearchResult; cbn in Herr |- *;
          first [ discriminate Herr
                | (injection Herr as <-; discriminate Ht)
                | reflexivity ]. }
      now rewrite Hemb, Ht.
    + intros ->. reflexivity.
    + intros webenv querykey Herr Hw Hq Htokens.
      rewrite Herr, Hw. cbn [Http.bind Http.run]. rewrite Hq. cbn [Http.bind Http.run].
      rewrite <- negb_andb, Htokens. reflexivity.
Qed.

Lemma search_first_step_failures_witness :
  Http.run (fun _ _ => Http.Fulfilled 204 (Samples.esearchPayload "157" []))
    (Search.handler (Samples.searchRequest "cancer" "pmc" "0" "2")) []
  = (inr (Http.mkResponse 204 (Http.ErrorBody "ESearch History API Error: 204" None)),
     ["https://eutils.ncbi.nlm.nih.gov/entrez/eutils/esearch.fcgi?db=pmc&term=cancer&usehistory=y&retmode=json"]).
Proof.
  apply (proj1 (search_first_step_failures
                  (fun _ _ => Http.Fulfilled 204 (Samples.esearchPayload "157" []))
                  (Samples.searchRequest "cancer" "pmc" "0" "2") 0 2 204
                  (Samples.esearchPayload "157" [])
                  ltac:(repeat split; first [ reflexivity | lia ]) eq_refl)).
  discriminate.
Defined.

(** X18: when the first answer of a valid search has both tokens and a
    [count] that is missing or does not parse as an integer, the count is
    taken as 0: the endpoint answers an empty page with total 0, whatever
    [retstart] is, and makes no second call. *)
Theorem search_unparsable_count
    (net : Http.upstream) (req : Http.http_request) (start max : Z)
    (data : Http.payload) (esearchResult webenv querykey count : jsval) :
  Props.validSearch req start max ->
  net [] (Search.searchUrl req) = Http.Fulfilled 200 data ->
  Val.getProp (Http.as_json data) "esearchresult" = Some esearchResult ->
  Props.hasTokens esearchResult webenv querykey ->
  Val.getProp esearchResult "count" = Some count ->
  Val.parseInt count = None ->
  Http.run net (Search.handler req) []
  = (inr (Http.mkResponse 200 (Http.SearchBody (JArr []) 0 start max)),
     [Search.searchUrl req]).
Proof.
  intros Hvalid Hnet Hres (Herr & Hw & Hwt & Hq & Hqt) Hcount Hparse.
  assert (Hzero : Search.countOf esearchResult = 0%Z).
  { unfold Search.countOf. rewrite Hcount, Hparse. now destruct (Val.truthy esearchResult). }
  assert (Hstart : (0 <= start)%Z) by (destruct Hvalid as (_ & _ & _ & _ & H & _); lia).
  rewrite (search_handler_valid req start max Hvalid), run_tryCatch.
  unfold Search.search, Http.axiosGet, Http.readProp.
  cbn [Http.bind Http.run]. rewrite Hnet.
  cbn [Http.bind Http.run Z.eqb Pos.eqb negb].
  rewrite Hres. cbn [Http.bind Http.run]. rewrite Herr, Hw. cbn [Http.bind Http.run].
  rewrite Hq. cbn [Http.bind Http.run]. rewrite Hwt, Hqt, Hzero. cbn [negb orb].
  destruct (Z.leb_spec 0 start); [reflexivity | lia].
Qed.

Lemma search_unparsable_count_witness :
  Http.run (Samples.esearchUpstream "many" ["123"])
    (Search.handler (Samples.searchRequest "cancer" "pmc" "0" "2")) []
  = (inr (Http.mkResponse 200 (Http.SearchBody (JArr []) 0 0 2)),
     ["https://eutils.ncbi.nlm.nih.gov/entrez/eutils/esearch.fcgi?db=pmc&term=cancer&usehistory=y&retmode=json"]).
Proof.
  apply (search_unparsable_count (Samples.esearchUpstream "many" ["123"])
           (Samples.searchRequest "cancer" "pmc" "0" "2") 0 2
           (Samples.esearchPayload "many" ["123"])
           (Samples.esearchResult "many" ["123"]) (JStr "MCID_1") (JStr "1")
           (JStr "many"));
    first [ reflexivity | (repeat split; first [ reflexivity | lia ]) ].
Defined.

(** X19: the defaults of the search endpoint.  A GET with a term and no
    [db], [retstart] or [retmax] passes the validation with [retstart] 0
    and [retmax] 10, and its first call asks the [pmc] database. *)
Theorem search_defaults (req : Http.http_request) :
  Http.method req = "GET" ->
  Val.truthy (Search.term req) = true ->
  Http.queryField req "db" = JUndefined ->
  Http.queryField req "retstart" = JUndefined ->
  Http.queryField req "retmax" = JUndefined ->
  Props.validSearch req 0 10
  /\ Search.handler req
     = Http.tryCatch (Search.search req 0 10) Search.handlerCatch
  /\ Search.searchUrl req
     = "https://eutils.ncbi.nlm.nih.gov/entrez/eutils/esearch.fcgi?db=pmc&term="
       +:+ Js.encodeURIComponent (Val.ToString (Search.term req))
       +:+ "&usehistory=y&retmode=json".
Proof.
  intros Hm Ht Hdb Hs Hx.
  assert (Hvalid : Props.validSearch req 0 10).
  { unfold Props.validSearch, Search.db, Search.retstart, Search.retmax.
    rewrite Hdb, Hs, Hx. repeat split; first [ assumption | reflexivity | lia ]. }
  split; [exact Hvalid |]. split; [now apply search_handler_valid |].
  unfold Search.searchUrl, Search.db. rewrite Hdb. reflexivity.
Qed.

Lemma search_defaults_witness :
  Props.validSearch (Http.mkRequest "GET" [("term", JStr "cancer")] JUndefined) 0 10.
Proof.
  apply (search_defaults (Http.mkRequest "GET" [("term", JStr "cancer")] JUndefined));
    reflexivity.
Defined.

(** ** What reaches the URLs *)

Section UriFacts.

Lemma hexDigit_unreserved (n : nat) :
  (n < 16)%nat -> Js.uriUnreserved (Js.hexDigit n) = true.
Proof.
  intros H. do 16 (destruct n as [|n]; [reflexivity |]). lia.
Qed.

Lemma percent_safe (n : nat) :
  (n < 256)%nat -> Forall Props.uriSafe (list_ascii_of_string (Js.percent n)).
Proof.
  intros H. unfold Js.percent. cbn [list_ascii_of_string].
  apply Forall_cons. split; [now right |].
  apply Forall_cons. split.
  { left. apply hexDigit_unreserved. apply Nat.Div0.div_lt_upper_bound. lia. }
  apply Forall_cons. split; [| constructor].
  left. apply hexDigit_unreserved. apply Nat.mod_upper_bound. lia.
Qed.

Lemma list_ascii_of_append (a b : string) :
  list_ascii_of_string (a +:+ b) = list_ascii_of_string a ++ list_ascii_of_string b.
Proof.
  induction a as [|c a IH]; [reflexivity |].
  change (c :: list_ascii_of_string (a +:+ b)
          = c :: (list_ascii_of_string a ++ list_ascii_of_string b)).
  now rewrite IH.
Qed.

Lemma nat_of_ascii_bound (c : ascii) : (nat_of_ascii c < 256)%nat.
Proof. destruct c as [[] [] [] [] [] [] [] []]; vm_compute; lia. Qed.

End UriFacts.

(** X20: [encodeURIComponent] yields only unreserved code units and percent
    signs, so the term of a search, and the id of a single-paper lookup,
    put no [&], [=], [#], [?], [/] or space of their own into the URL. *)
Theorem encoded_term_is_safe (s : string) :
  Forall Props.uriSafe (list_ascii_of_string (Js.encodeURIComponent s))
  /\ Forall (fun c => ~ In c ["&"; "="; "#"; "?"; "/"; " "]%char)
       (list_ascii_of_string (Js.encodeURIComponent s)).
Proof.
  assert (Hsafe : Forall Props.uriSafe (list_ascii_of_string (Js.encodeURIComponent s))).
  { induction s as [|c s IH]; [constructor |].
    cbn [Js.encodeURIComponent]. rewrite list_ascii_of_append.
    apply Forall_app. split; [| exact IH].
    assert (Hc := nat_of_ascii_bound c).
    destruct (Js.uriUnreserved c) eqn:Hu.
    - cbn [list_ascii_of_string]. apply Forall_cons. split; [now left | constructor].
    - destruct (nat_of_ascii c <? 128)%nat.
      + now apply percent_safe.
      + rewrite list_ascii_of_append. apply Forall_app. split; apply percent_safe.
        * assert (nat_of_ascii c / 64 < 4)%nat
            by (apply Nat.Div0.div_lt_upper_bound; lia). lia.
        * assert (nat_of_ascii c mod 64 < 64)%nat by (apply Nat.mod_upper_bound; lia).
          lia. }
  split; [exact Hsafe |].
  eapply Forall_impl; [exact Hsafe |].
  intros c [Hc | ->] Hin.
  - cbn in Hin. decompose [or] Hin; subst; try discriminate Hc; contradiction.
  - cbn in Hin. decompose [or] Hin; try discriminate; contradiction.
Qed.

(** ** Errors never escape *)



